(** * The right-panel store of the chat client, and its navigation rules

    A shallow embedding of [RightPanelStore] (the second half of
    [src/components/structures/RightPanel.tsx]): the per-room history of
    (phase, state) cards, the open flag, the verification redirect, the
    phase validity check, the four public setters and the dispatcher
    callback.  Every setter is a computation over the store that may log,
    write settings, notify, or die with a [TypeError]. *)

From stdpp Require Import gmap strings list fin_maps.

Set Default Proof Using "Type".

(** ** Phases *)

(** Modelled from the spec: the declaration of the enum [RightPanelPhases]
    (file [RightPanelStorePhases]) is not among the sources.  The spec calls
    a phase "an enumerated tag identifying which view is active", split in a
    room family and a legacy group family; the members below are exactly the
    ones the source names ([GROUP_PHASES], [MEMBER_INFO_PHASES] and the
    [switch] of [render]). *)
Inductive RightPanelPhases :=
  | RoomMemberList | FilePanel | NotificationPanel | RoomMemberInfo
  | EncryptionPanel | RoomSummary | Widget | PinnedMessages | Timeline
  | Room3pidMemberInfo
  | GroupMemberList | GroupRoomList | GroupRoomInfo | GroupMemberInfo
  | SpaceMemberList | SpaceMemberInfo | Space3pidMemberInfo
  | ThreadView | ThreadPanel.

#[global] Instance RightPanelPhases_eq_dec : EqDecision RightPanelPhases.
Proof. solve_decision. Defined.

(** What a [phase] slot can hold at run time: [null] (the empty card), a
    member of the enum, or any other value a caller may hand in. *)
Inductive PhaseValue :=
  | PNull
  | P (p : RightPanelPhases)
  | PUnknown (raw : string).

#[global] Instance PhaseValue_eq_dec : EqDecision PhaseValue.
Proof. solve_decision. Defined.

(** [a === b] on phase values. *)
Definition phase_eqb (a b : PhaseValue) : bool := bool_decide (a = b).

(** [Array.prototype.includes] on a list of enum members. *)
Definition includes (l : list RightPanelPhases) (v : PhaseValue) : bool :=
  match v with
  | P p => bool_decide (p ∈ l)
  | _ => false
  end.

Definition GROUP_PHASES : list RightPanelPhases :=
  [GroupMemberList; GroupRoomList; GroupRoomInfo; GroupMemberInfo].

Definition MEMBER_INFO_PHASES : list RightPanelPhases :=
  [RoomMemberInfo; Room3pidMemberInfo; EncryptionPanel].

(** The names every plain object inherits from [Object.prototype].  Reading
    one of them from an object that has no property of its own by that name
    gives the inherited member (a function, or the prototype itself for
    [__proto__]), which is truthy, and never [undefined]. *)
Definition objectPrototypeNames : list string :=
  ["constructor"; "__defineGetter__"; "__defineSetter__"; "hasOwnProperty";
   "__lookupGetter__"; "__lookupSetter__"; "isPrototypeOf";
   "propertyIsEnumerable"; "toString"; "valueOf"; "__proto__";
   "toLocaleString"].

Definition inheritedName (k : string) : bool :=
  bool_decide (k ∈ objectPrototypeNames).

(** Whether [RightPanelPhases[targetPhase]] is truthy.  The enum is a plain
    object: the lookup succeeds for its members and also for the names it
    inherits from [Object.prototype].  ([PUnknown raw] stands for a value
    that is not a member, [raw] being the property name it is turned into;
    a value named like a member is that member.) *)
Definition recognized (v : PhaseValue) : bool :=
  match v with
  | P _ => true
  | PUnknown raw => inheritedName raw
  | PNull => false
  end.

(** ** Room identifiers as JavaScript sees them *)

(** [viewedRoomId], the [roomId] arguments and [payload.room_id] are
    strings that may also be [undefined] or [null]. *)
Inductive JsId :=
  | IdUndefined
  | IdNull
  | Id (s : string).

#[global] Instance JsId_eq_dec : EqDecision JsId.
Proof. solve_decision. Defined.

(** [a ?? b] *)
Definition nullish_id (a b : JsId) : JsId :=
  match a with
  | Id _ => a
  | _ => b
  end.

(** [!!id]: the empty string is falsy as well. *)
Definition truthy_id (a : JsId) : bool :=
  match a with
  | Id s => negb (bool_decide (s = ""))
  | _ => false
  end.

(** The property key [byRoom[id]] reads or writes: a non-string is turned
    into its name.  [byRoom] is a plain object and the finite map of the
    store holds its own properties.  For a key that is an [inheritedName]
    and has no record of its own, the code reads the inherited member where
    the map answers that there is nothing; where the code then behaves
    otherwise than for a room without record, the statement about the
    missing record carries [inheritedName (key _) = false]. *)
Definition key (a : JsId) : string :=
  match a with
  | IdUndefined => "undefined"
  | IdNull => "null"
  | Id s => s
  end.

(** [payload.action]; [Action.ViewRoom] and the literal ['view_group'] are
    the two the store listens to. *)
Inductive Action :=
  | ViewRoom
  | view_group
  | OtherAction (name : string).

#[global] Instance Action_eq_dec : EqDecision Action.
Proof. solve_decision. Defined.

Record ActionPayload := { action : Action; room_id : JsId }.

Inductive SettingLevel := DEVICE | ROOM_DEVICE.

Set Implicit Arguments.
Set Maximal Implicit Insertion.

Section Store.

(** The objects the store passes around without looking inside. *)
Variables Member Request Value Room Stored : Type.

(** ** Cards, histories and the store *)

(** [IPanelState]: the store reads [member] and writes
    [verificationRequest]; every other field is carried along. *)
Record IPanelState := {
  member : option Member;
  verificationRequest : option Request;
  otherFields : list (string * Value)
}.

(** The object literal [{}]. *)
Definition emptyState : IPanelState :=
  {| member := None; verificationRequest := None; otherFields := [] |}.

(** [IPhaseAndState]; [state] is [None] when it is [null]. *)
Record IPhaseAndState := {
  phase : PhaseValue;
  state : option IPanelState
}.

Record IRightPanelForRoom := {
  history : list IPhaseAndState;
  isOpen : bool
}.

Record RightPanelStore := {
  viewedRoomId : JsId;
  isViewingRoom : bool;        (* [undefined] reads as [false] *)
  roomStoreToken : bool;       (* whether a subscription is held *)
  byRoom : gmap string IRightPanelForRoom;
  global : option IRightPanelForRoom
}.

(** The store right after its constructor ran. *)
Definition initialStore : RightPanelStore :=
  {| viewedRoomId := IdUndefined; isViewingRoom := false;
     roomStoreToken := false; byRoom := ∅; global := None |}.

Definition set_byRoom (m : gmap string IRightPanelForRoom)
    (s : RightPanelStore) : RightPanelStore :=
  {| viewedRoomId := viewedRoomId s; isViewingRoom := isViewingRoom s;
     roomStoreToken := roomStoreToken s; byRoom := m; global := global s |}.

Definition set_global (g : option IRightPanelForRoom)
    (s : RightPanelStore) : RightPanelStore :=
  {| viewedRoomId := viewedRoomId s; isViewingRoom := isViewingRoom s;
     roomStoreToken := roomStoreToken s; byRoom := byRoom s; global := g |}.

Definition set_viewed (rid : JsId) (viewing : bool)
    (s : RightPanelStore) : RightPanelStore :=
  {| viewedRoomId := rid; isViewingRoom := viewing;
     roomStoreToken := roomStoreToken s; byRoom := byRoom s;
     global := global s |}.

(** ** What a call does to the outside *)

Inductive Warning :=
  | UnknownPhase (p : PhaseValue)
  | GroupPhaseNotViewingGroup (p : PhaseValue)
  | RoomPhaseNotViewingRoom (p : PhaseValue).

Inductive Effect :=
  | LoggerWarn (w : Warning)
  | SetValue (settingName : string) (roomId : JsId) (level : SettingLevel)
             (value : Stored)
  | EmitUpdate.

(** The collaborators: the verification lookup, the client's room table,
    the settings store, and the two converters of
    [RightPanelStoreIPanelState], none of which is among the sources. *)
Record Env := {
  pendingVerificationRequestForUser : option Member -> option Request;
  getRoom : JsId -> option Room;
  getValue : string -> JsId -> Stored;
  convertToStateRoom : Stored -> Room -> option IRightPanelForRoom;
  convertToStoreRoom : option IRightPanelForRoom -> Stored
}.

(** ** Computations: state, output and [TypeError] *)

Inductive Res (A : Type) :=
  | Ret (a : A) (s : RightPanelStore) (out : list Effect)
  | Throw (s : RightPanelStore) (out : list Effect).
Arguments Ret {A} a s out.
Arguments Throw {A} s out.

Definition M (A : Type) : Type := RightPanelStore -> Res A.

Definition ret {A} (a : A) : M A := fun s => Ret a s [].

Definition bind {A B} (m : M A) (f : A -> M B) : M B := fun s =>
  match m s with
  | Ret a s1 o1 =>
      match f a s1 with
      | Ret b s2 o2 => Ret b s2 (o1 ++ o2)
      | Throw s2 o2 => Throw s2 (o1 ++ o2)
      end
  | Throw s1 o1 => Throw s1 o1
  end.

Definition get : M RightPanelStore := fun s => Ret s s [].
Definition modify (f : RightPanelStore -> RightPanelStore) : M unit :=
  fun s => Ret tt (f s) [].
Definition tell (e : Effect) : M unit := fun s => Ret tt s [e].
Definition throwTypeError {A} : M A := fun s => Throw s [].

Notation "x <- m ;; k" := (bind m (fun x => k))
  (at level 100, m at next level, right associativity).
Notation "m ;;; k" := (bind m (fun _ => k))
  (at level 100, right associativity).

(** The store a computation leaves, whether it returned or threw. *)
Definition final {A} (r : Res A) : RightPanelStore :=
  match r with
  | Ret _ s _ => s
  | Throw s _ => s
  end.

Definition output {A} (r : Res A) : list Effect :=
  match r with
  | Ret _ _ o => o
  | Throw _ o => o
  end.

Definition threw {A} (r : Res A) : bool :=
  match r with
  | Ret _ _ _ => false
  | Throw _ _ => true
  end.

(** ** Getters *)

Definition isOpenForRoom (s : RightPanelStore) : bool :=
  match byRoom s !! key (viewedRoomId s) with
  | Some r => isOpen r
  | None => false
  end.

Definition historyOf (rid : JsId) (s : RightPanelStore)
    : list IPhaseAndState :=
  match byRoom s !! key rid with
  | Some r => history r
  | None => []
  end.

Definition roomPhaseHistory (s : RightPanelStore) : list IPhaseAndState :=
  historyOf (viewedRoomId s) s.

(** [{ state: {}, phase: null }] *)
Definition emptyPanel : IPhaseAndState :=
  {| phase := PNull; state := Some emptyState |}.

Definition currentPanel (s : RightPanelStore) : IPhaseAndState :=
  match last (roomPhaseHistory s) with
  | Some e => e
  | None => emptyPanel
  end.

Definition currentPanelForRoom (roomId : JsId) (s : RightPanelStore)
    : IPhaseAndState :=
  match last (historyOf roomId s) with
  | Some e => e
  | None => currentPanel s
  end.

Definition previousPanel (s : RightPanelStore) : IPhaseAndState :=
  let hist := roomPhaseHistory s in
  if 2 <=? length hist
  then default emptyPanel (hist !! (length hist - 2))
  else emptyPanel.

(** ** Private helpers *)

Section WithEnv.
Variable E : Env.

Definition emitAndUpdateSettings : M unit :=
  s <- get ;;
  let storePanelGlobal := convertToStoreRoom E (global s) in
  let storePanelThisRoom :=
    convertToStoreRoom E (byRoom s !! key (viewedRoomId s)) in
  tell (SetValue "RightPanel.phasesGlobal" IdNull DEVICE storePanelGlobal) ;;;
  (if truthy_id (viewedRoomId s)
   then tell (SetValue "RightPanel.phases" (viewedRoomId s) ROOM_DEVICE
                storePanelThisRoom)
   else ret tt) ;;;
  tell EmitUpdate.

(** [a ?? b] where [a] is a record that may be missing; a missing result
    leaves the slot reading [undefined], as before. *)
Definition loadCacheFromSettings : M unit :=
  s <- get ;;
  match getRoom E (viewedRoomId s) with
  | Some room =>
      let g :=
        match global s with
        | Some r => Some r
        | None =>
            convertToStateRoom E
              (getValue E "RightPanel.phasesGlobal" IdUndefined) room
        end in
      let k := key (viewedRoomId s) in
      let m :=
        match byRoom s !! k with
        | Some _ => byRoom s
        | None =>
            match convertToStateRoom E
                    (getValue E "RightPanel.phases" (viewedRoomId s)) room
            with
            | Some r => <[k := r]> (byRoom s)
            | None => byRoom s
            end
        end in
      modify (fun s => set_byRoom m (set_global g s))
  | None => ret tt
  end.

Definition setRightPanelCache (targetPhase : PhaseValue)
    (panelState : option IPanelState) : M unit :=
  modify (fun s =>
    set_byRoom
      (<[key (viewedRoomId s) :=
           {| history := [ {| phase := targetPhase;
                              state := Some (default emptyState panelState) |} ];
              isOpen := true |}]> (byRoom s)) s) ;;;
  emitAndUpdateSettings.

Definition getVerificationRedirect (phaseAndState : IPhaseAndState)
    : option IPhaseAndState :=
  match phase phaseAndState, state phaseAndState with
  | P RoomMemberInfo, Some st =>
      let member := member st in
      match pendingVerificationRequestForUser E member with
      | Some pendingRequest =>
          Some {| phase := P EncryptionPanel;
                  state := Some {| member := member;
                                   verificationRequest := Some pendingRequest;
                                   otherFields := [] |} |}
      | None => None
      end
  | _, _ => None
  end.

Definition isPhaseActionIsValid (targetPhase : PhaseValue) : M bool :=
  s <- get ;;
  if negb (recognized targetPhase) then
    tell (LoggerWarn (UnknownPhase targetPhase)) ;;; ret false
  else if includes GROUP_PHASES targetPhase && isViewingRoom s then
    tell (LoggerWarn (GroupPhaseNotViewingGroup targetPhase)) ;;; ret false
  else if negb (includes GROUP_PHASES targetPhase) && negb (isViewingRoom s) then
    tell (LoggerWarn (RoomPhaseNotViewingRoom targetPhase)) ;;; ret false
  else ret true.

(** The pair a setter works with once the redirect has been consulted:
    [redirect?.phase ?? phase] and [redirect?.state ?? state]. *)
Definition resolve (ph : PhaseValue) (st : option IPanelState)
    : PhaseValue * option IPanelState :=
  let redirect := getVerificationRedirect {| phase := ph; state := st |} in
  (match redirect with
   | Some r => match phase r with PNull => ph | p => p end
   | None => ph
   end,
   match redirect with
   | Some r => match state r with Some x => Some x | None => st end
   | None => st
   end).

(** ** Setters *)

Definition togglePanel (roomId : JsId) : M unit :=
  s <- get ;;
  let rId := nullish_id roomId (viewedRoomId s) in
  match byRoom s !! key rId with
  | None => throwTypeError
  | Some r =>
      modify (set_byRoom
        (<[key rId := {| history := history r; isOpen := negb (isOpen r) |}]>
           (byRoom s))) ;;;
      emitAndUpdateSettings
  end.

Definition setRightPanel (ph : PhaseValue) (st : option IPanelState)
    (allowClose : bool) (roomId : JsId) : M unit :=
  s <- get ;;
  let rId := nullish_id roomId (viewedRoomId s) in
  let '(targetPhase, panelState) := resolve ph st in
  valid <- isPhaseActionIsValid targetPhase ;;
  if negb valid then ret tt
  else if phase_eqb targetPhase (phase (currentPanel s))
          && allowClose && negb (bool_decide (is_Some panelState))
  then togglePanel rId
  else if phase_eqb targetPhase (phase (currentPanelForRoom rId s))
          && bool_decide (is_Some panelState)
  then
    match byRoom s !! key rId with
    | None => throwTypeError
    | Some r =>
        let hist := history r in
        match last hist with
        | None => throwTypeError
        | Some top =>
            modify (set_byRoom
              (<[key rId :=
                   {| history :=
                        <[length hist - 1 :=
                            {| phase := phase top; state := panelState |}]> hist;
                      isOpen := isOpen r |}]> (byRoom s))) ;;;
            emitAndUpdateSettings
        end
    end
  else if negb (phase_eqb targetPhase (phase (currentPanel s)))
  then setRightPanelCache targetPhase panelState
  else ret tt.

Definition pushRightPanel (ph : PhaseValue) (panelState : option IPanelState)
    (allowClose : bool) (roomId : JsId) : M unit :=
  s <- get ;;
  let rId := nullish_id roomId (viewedRoomId s) in
  let '(targetPhase, pState) := resolve ph panelState in
  valid <- isPhaseActionIsValid targetPhase ;;
  if negb valid then ret tt
  else
    (match byRoom s !! key rId with
     | Some roomCache =>
         modify (set_byRoom
           (<[key rId :=
                {| history :=
                     history roomCache ++
                       [ {| phase := targetPhase; state := pState |} ];
                   isOpen := if allowClose then isOpen roomCache else true |}]>
              (byRoom s)))
     | None =>
         (* the new record is bound to the local [roomCache] and nothing else *)
         let roomCache :=
           {| history := [ {| phase := targetPhase; state := pState |} ];
              isOpen := negb allowClose |} in
         ret tt
     end) ;;;
    emitAndUpdateSettings.

(** [Array.prototype.pop] does nothing to an empty array. *)
Definition popRightPanel (roomId : JsId) : M unit :=
  s <- get ;;
  let rId := nullish_id roomId (viewedRoomId s) in
  match byRoom s !! key rId with
  | None => throwTypeError
  | Some roomCache =>
      modify (set_byRoom
        (<[key rId :=
             {| history := removelast (history roomCache);
                isOpen := isOpen roomCache |}]> (byRoom s))) ;;;
      emitAndUpdateSettings
  end.

(** ** The dispatcher callback *)

Definition onDispatch (payload : ActionPayload) : M unit :=
  match action payload with
  | OtherAction _ => ret tt
  | _ =>
      s <- get ;;
      if bool_decide (room_id payload = viewedRoomId s) then ret tt
      else
        (if negb (bool_decide
                    ((if isViewingRoom s then ViewRoom else view_group)
                     = action payload))
         then
           if bool_decide (action payload = ViewRoom)
              && includes MEMBER_INFO_PHASES (phase (currentPanel s))
           then setRightPanelCache (P RoomMemberList) (Some emptyState)
           else if bool_decide (action payload = view_group)
                   && phase_eqb (phase (currentPanel s)) (P GroupMemberInfo)
           then setRightPanelCache (P GroupMemberList) (Some emptyState)
           else ret tt
         else ret tt) ;;;
        modify (set_viewed (room_id payload)
                  (bool_decide (action payload = ViewRoom))) ;;;
        s' <- get ;;
        if roomStoreToken s'
        then loadCacheFromSettings ;;; emitAndUpdateSettings
        else ret tt
  end.

End WithEnv.

(** ** Vocabulary of the statements *)

(** What one run of [emitAndUpdateSettings] sends out: the global record,
    the record of the viewed room when there is one, then the
    notification. *)
Definition persisted (E : Env) (s : RightPanelStore) : list Effect :=
  SetValue "RightPanel.phasesGlobal" IdNull DEVICE
    (convertToStoreRoom E (global s))
  :: (if truthy_id (viewedRoomId s)
      then [SetValue "RightPanel.phases" (viewedRoomId s) ROOM_DEVICE
              (convertToStoreRoom E (byRoom s !! key (viewedRoomId s)))]
      else [])
  ++ [EmitUpdate].

(** The validity rule in the spec's words: the phase is a recognized member
    of the enum and its family (group or not) is the one of the mode. *)
Definition phaseMatchesMode (viewingRoom : bool) (p : PhaseValue) : bool :=
  recognized p && bool_decide (includes GROUP_PHASES p = negb viewingRoom).

Definition isWarning (e : Effect) : bool :=
  match e with
  | LoggerWarn _ => true
  | _ => false
  end.

(** The coercion of the current card when the mode changes, in the words
    of the design: into room mode from group mode, a card of the
    room-member-info family becomes the room member list; into group mode
    from room mode, the group member info becomes the group member list. *)
Definition coercion (viewingRoom : bool) (a : Action) (current : PhaseValue)
    : option RightPanelPhases :=
  match viewingRoom, a with
  | false, ViewRoom =>
      if includes MEMBER_INFO_PHASES current then Some RoomMemberList else None
  | true, view_group =>
      if phase_eqb current (P GroupMemberInfo) then Some GroupMemberList
      else None
  | _, _ => None
  end.

(** The room a setter called with [roomId] works on. *)
Definition target (roomId : JsId) (s : RightPanelStore) : JsId :=
  nullish_id roomId (viewedRoomId s).

(** Every record of the store has a history with an entry in it. *)
Definition histories_nonempty (s : RightPanelStore) : Prop :=
  forall k r, byRoom s !! k = Some r -> history r <> [].

(** The public setters as data, to talk about sequences of calls. *)
Inductive Call :=
  | CallSet (ph : PhaseValue) (st : option IPanelState) (allowClose : bool)
            (roomId : JsId)
  | CallPush (ph : PhaseValue) (st : option IPanelState) (allowClose : bool)
             (roomId : JsId)
  | CallPop (roomId : JsId)
  | CallToggle (roomId : JsId).

Definition call (E : Env) (c : Call) : M unit :=
  match c with
  | CallSet ph st ac rid => setRightPanel E ph st ac rid
  | CallPush ph st ac rid => pushRightPanel E ph st ac rid
  | CallPop rid => popRightPanel E rid
  | CallToggle rid => togglePanel E rid
  end.

Definition isPop (c : Call) : bool :=
  match c with
  | CallPop _ => true
  | _ => false
  end.

(** The store after a sequence of calls, each made under the collaborators
    of its moment; a call that throws leaves the store as it was when it
    threw and the next call goes on from there. *)
Definition run (cs : list (Env * Call)) (s : RightPanelStore)
    : RightPanelStore :=
  fold_left (fun s ec => final (call ec.1 ec.2 s)) cs s.

End Store.

Unset Maximal Implicit Insertion.
Unset Implicit Arguments.

Arguments emptyState {Member Request Value}.
Arguments emptyPanel {Member Request Value}.
Arguments initialStore {Member Request Value}.
Arguments EmitUpdate {Stored}.
Arguments LoggerWarn {Stored} w.
Arguments CallPop {Member Request Value} roomId.
Arguments CallToggle {Member Request Value} roomId.
Arguments Throw {Member Request Value Stored A} s out.
Arguments ret {Member Request Value Stored A} a _.
Arguments get {Member Request Value Stored} _.
Arguments modify {Member Request Value Stored} f _.
Arguments throwTypeError {Member Request Value Stored A} _.
Arguments isPhaseActionIsValid {Member Request Value Stored} targetPhase _.

Notation "x <- m ;; k" := (bind m (fun x => k))
  (at level 100, m at next level, right associativity).
Notation "m ;;; k" := (bind m (fun _ => k))
  (at level 100, right associativity).

(** ** The rest of the store *)

Set Implicit Arguments.
Set Maximal Implicit Insertion.

Section StoreLifecycle.

Variables Member Request Value Room Stored : Type.

(** [onReady]: the body has no [await], it runs to its end when called. *)
Definition onReady (E : Env Member Request Value Room Stored)
    : M Member Request Value Stored unit :=
  loadCacheFromSettings E ;;; emitAndUpdateSettings E.

(** The getters kept for groups. *)
Definition isOpenForGroup (s : RightPanelStore Member Request Value) : bool :=
  isOpenForRoom s.
Definition groupPhaseHistory (s : RightPanelStore Member Request Value)
    : list (IPhaseAndState Member Request Value) :=
  roomPhaseHistory s.
Definition currentGroup (s : RightPanelStore Member Request Value)
    : IPhaseAndState Member Request Value :=
  currentPanel s.
Definition previousGroup (s : RightPanelStore Member Request Value)
    : IPhaseAndState Member Request Value :=
  previousPanel s.

(** *** Vocabulary *)

Definition isUpdate (e : Effect Stored) : bool :=
  match e with
  | EmitUpdate => true
  | _ => false
  end.

(** How many times the subscribers were notified. *)
Definition updates (out : list (Effect Stored)) : nat :=
  length (filter (fun e => isUpdate e = true) out).

(** The [roomId] argument of a call. *)
Definition roomOf (c : Call Member Request Value) : JsId :=
  match c with
  | CallSet _ _ _ rid => rid
  | CallPush _ _ _ rid => rid
  | CallPop rid => rid
  | CallToggle rid => rid
  end.

Definition isSet (c : Call Member Request Value) : bool :=
  match c with
  | CallSet _ _ _ _ => true
  | _ => false
  end.

(** Every card of every record carries a member of the enum. *)
Definition histories_recognized (s : RightPanelStore Member Request Value)
    : Prop :=
  forall k r e, byRoom s !! k = Some r -> e ∈ history r ->
    recognized (phase e) = true.

(** What can happen to the store from outside: a setter is called, or the
    dispatcher fires. *)
Inductive Event :=
  | Called (c : Call Member Request Value)
  | Dispatched (payload : ActionPayload).

Definition handle (E : Env Member Request Value Room Stored) (ev : Event)
    : M Member Request Value Stored unit :=
  match ev with
  | Called c => call E c
  | Dispatched payload => onDispatch E payload
  end.

Definition runEvents
    (evs : list (Env Member Request Value Room Stored * Event))
    (s : RightPanelStore Member Request Value)
    : RightPanelStore Member Request Value :=
  fold_left (fun s ee => final (handle ee.1 ee.2 s)) evs s.

(** A request handed to [pushRightPanel], and the card it puts on the
    history once resolved. *)
Definition pushed (E : Env Member Request Value Room Stored)
    (req : PhaseValue * option (IPanelState Member Request Value))
    : IPhaseAndState Member Request Value :=
  {| phase := (resolve E req.1 req.2).1; state := (resolve E req.1 req.2).2 |}.

(** The five ways a setter ends: a record rewritten, persisted and
    notified; nothing rewritten but persisted and notified all the same;
    nothing at all; a warning; a [TypeError]. *)
Inductive Ending (E : Env Member Request Value Room Stored)
    (c : Call Member Request Value) (s : RightPanelStore Member Request Value)
    : Res Member Request Value Stored unit -> Prop :=
  | EndsRewritten k r :
      k = key (target (roomOf c) s)
      \/ (isSet c = true /\ k = key (viewedRoomId s)) ->
      Ending E c s
        (Ret tt (set_byRoom (<[k := r]> (byRoom s)) s)
           (persisted E (set_byRoom (<[k := r]> (byRoom s)) s)))
  | EndsNotifiedOnly : Ending E c s (Ret tt s (persisted E s))
  | EndsSilent : Ending E c s (Ret tt s [])
  | EndsWarned w : Ending E c s (Ret tt s [LoggerWarn w])
  | EndsThrown : Ending E c s (Throw s []).

(** The store once the coercion of [onDispatch] has run for action [a]. *)
Definition coerced (a : Action) (s : RightPanelStore Member Request Value)
    : RightPanelStore Member Request Value :=
  match coercion (isViewingRoom s) a (phase (currentPanel s)) with
  | Some q =>
      set_byRoom
        (<[key (viewedRoomId s) :=
             {| history := [ {| phase := P q; state := Some emptyState |} ];
                isOpen := true |}]> (byRoom s)) s
  | None => s
  end.

End StoreLifecycle.

Unset Maximal Implicit Insertion.
Unset Implicit Arguments.

Arguments Dispatched {Member Request Value} payload.

(** ** A small world to run the store in *)

Module Demo.

(** Members are user ids, verification requests are handles, rooms carry
    nothing, and a record is stored as it is. *)
Definition Record_ : Type := IRightPanelForRoom string nat string.
Definition Store_ : Type := RightPanelStore string nat string.
Definition Env_ : Type := Env string nat string unit (option Record_).

Definition world (pending : option string -> option nat) : Env_ :=
  {| pendingVerificationRequestForUser := pending;
     getRoom := fun _ => None;
     getValue := fun _ _ => None;
     convertToStateRoom := fun v _ => v;
     convertToStoreRoom := fun r => r |}.

(** No verification is pending for anybody. *)
Definition quiet : Env_ := world (fun _ => None).

(** Request number 7 is pending for Alice. *)
Definition alice : string := "@alice:example.org".
Definition verifying : Env_ :=
  world (fun m => if bool_decide (m = Some alice) then Some 7 else None).

Definition aliceState : IPanelState string nat string :=
  {| member := Some alice; verificationRequest := None; otherFields := [] |}.

Definition aliceVerification : IPanelState string nat string :=
  {| member := Some alice; verificationRequest := Some 7; otherFields := [] |}.

Definition view (a : Action) (rid : string) (s : Store_) : Store_ :=
  final (onDispatch quiet {| action := a; room_id := Id rid |} s).

Definition roomA : string := "!a:example.org".
Definition roomB : string := "!b:example.org".
Definition groupG : string := "+g:example.org".

(** The store once room A has been opened for the first time. *)
Definition inRoomA : Store_ := view ViewRoom roomA initialStore.

(** Room B was visited and shows its member list; room A is viewed now and
    shows its summary. *)
Definition inRoomA_afterB : Store_ :=
  final (setRightPanel quiet (P RoomSummary) None true IdNull
    (view ViewRoom roomA
      (final (setRightPanel quiet (P RoomMemberList) None true IdNull
        (view ViewRoom roomB initialStore))))).

(** Room A is viewed and shows the member info of Alice. *)
Definition inRoomA_memberInfo : Store_ :=
  final (setRightPanel quiet (P RoomMemberInfo) (Some aliceState) true IdNull
    inRoomA).

(** Group G is viewed and shows its member list. *)
Definition inGroupG : Store_ :=
  final (setRightPanel quiet (P GroupMemberList) None true IdNull
    (view view_group groupG initialStore)).

(** The identifier of room A comes back in a [view_group] action after room
    B was viewed: the store is in group mode on the record that room A left,
    whose card is the member info of Alice. *)
Definition inGroupA_memberInfo : Store_ :=
  view view_group roomA (view ViewRoom roomB inRoomA_memberInfo).

Definition card (p : RightPanelPhases) (st : IPanelState string nat string)
    : IPhaseAndState string nat string :=
  {| phase := P p; state := Some st |}.

Definition summaryRecord : Record_ :=
  {| history := [card RoomSummary emptyState]; isOpen := true |}.

Definition memberInfoRecord : Record_ :=
  {| history := [card RoomMemberInfo aliceState]; isOpen := true |}.

Definition bob : string := "@bob:example.org".
Definition bobState : IPanelState string nat string :=
  {| member := Some bob; verificationRequest := None; otherFields := [] |}.

End Demo.

Module DemoMore.

Import Demo.

Definition roomC : string := "!c:example.org".

(** Room A is viewed and shows the file panel on top of its summary. *)
Definition inRoomA_twoCards : Store_ :=
  final (pushRightPanel quiet (P FilePanel) None true IdNull inRoomA_afterB).

Definition twoCardsRecord : Record_ :=
  {| history := [card RoomSummary emptyState;
                 {| phase := P FilePanel; state := None |}];
     isOpen := true |}.

Definition memberListRecord : Record_ :=
  {| history := [card RoomMemberList emptyState]; isOpen := true |}.

(** Room A is viewed and shows the member info of Alice on top of its
    summary. *)
Definition inRoomA_summaryThenMemberInfo : Store_ :=
  final (pushRightPanel quiet (P RoomMemberInfo) (Some aliceState) true IdNull
    inRoomA_afterB).

Definition summaryThenMemberInfoRecord : Record_ :=
  {| history := [card RoomSummary emptyState; card RoomMemberInfo aliceState];
     isOpen := true |}.

(** Room A is viewed, request 7 is pending for Alice, and the verification
    of Alice is shown on top of the summary. *)
Definition inRoomA_verifyingAlice : Store_ :=
  final (pushRightPanel verifying (P RoomMemberInfo) (Some aliceState) true IdNull
    inRoomA_afterB).

(** A state for the member info of Alice that carries a field more. *)
Definition aliceFromWidget : IPanelState string nat string :=
  {| member := Some alice; verificationRequest := None;
     otherFields := [("widgetId", "w1")] |}.

(** Room A is opened, an unknown phase is asked for, then the summary. *)
Definition someEvents : list (Env_ * Event string nat string) :=
  [ (quiet, Dispatched {| action := ViewRoom; room_id := Id roomA |});
    (quiet, Called (CallSet (PUnknown "Bogus") None true IdNull));
    (quiet, Called (CallSet (P RoomSummary) None true IdNull)) ].

End DemoMore.

(** * Properties *)

Section Properties.

Context {Member Request Value Room Stored : Type}.

Implicit Types (E : Env Member Request Value Room Stored).
Implicit Types (s : RightPanelStore Member Request Value).
Implicit Types (r : IRightPanelForRoom Member Request Value).
Implicit Types (st : option (IPanelState Member Request Value)).
Implicit Types (ph p : PhaseValue) (rid roomId : JsId) (ac : bool).

(** ** How the pieces run *)

Ltac step := unfold bind, get, modify, tell, ret, throwTypeError; simpl.

Lemma emitAndUpdateSettings_eq E s :
  emitAndUpdateSettings E s = Ret tt s (persisted E s).
Proof.
  unfold emitAndUpdateSettings, persisted. step.
  destruct (truthy_id (viewedRoomId s)); reflexivity.
Qed.

Lemma isPhaseActionIsValid_accepts p s :
  phaseMatchesMode (isViewingRoom s) p = true ->
  isPhaseActionIsValid (Stored := Stored) p s = Ret true s [].
Proof.
  unfold phaseMatchesMode, isPhaseActionIsValid. step.
  destruct (recognized p); simpl; [|discriminate].
  destruct (includes GROUP_PHASES p), (isViewingRoom s); simpl;
    first [reflexivity | discriminate].
Qed.

Lemma isPhaseActionIsValid_rejects p s :
  phaseMatchesMode (isViewingRoom s) p = false ->
  exists w, isPhaseActionIsValid (Stored := Stored) p s
            = Ret false s [LoggerWarn w].
Proof.
  unfold phaseMatchesMode, isPhaseActionIsValid. step.
  destruct (recognized p); simpl; [|intros _; eexists; reflexivity].
  destruct (includes GROUP_PHASES p), (isViewingRoom s); simpl;
    first [discriminate | intros _; eexists; reflexivity].
Qed.

Lemma togglePanel_eq E rid s r :
  byRoom s !! key (target rid s) = Some r ->
  let s' := set_byRoom
     (<[key (target rid s) :=
          {| history := history r; isOpen := negb (isOpen r) |}]> (byRoom s)) s in
  togglePanel E rid s = Ret tt s' (persisted E s').
Proof.
  intros Hr s'. unfold togglePanel, target in *. step. rewrite Hr. step.
  rewrite emitAndUpdateSettings_eq. reflexivity.
Qed.

Lemma popRightPanel_eq E rid s r :
  byRoom s !! key (target rid s) = Some r ->
  let s' := set_byRoom
     (<[key (target rid s) :=
          {| history := removelast (history r); isOpen := isOpen r |}]>
        (byRoom s)) s in
  popRightPanel E rid s = Ret tt s' (persisted E s').
Proof.
  intros Hr s'. unfold popRightPanel, target in *. step. rewrite Hr. step.
  rewrite emitAndUpdateSettings_eq. reflexivity.
Qed.

Lemma pushRightPanel_existing E ph st ac rid s r :
  phaseMatchesMode (isViewingRoom s) (resolve E ph st).1 = true ->
  byRoom s !! key (target rid s) = Some r ->
  let s' := set_byRoom
     (<[key (target rid s) :=
          {| history := history r ++
                          [ {| phase := (resolve E ph st).1;
                               state := (resolve E ph st).2 |} ];
             isOpen := if ac then isOpen r else true |}]> (byRoom s)) s in
  pushRightPanel E ph st ac rid s = Ret tt s' (persisted E s').
Proof.
  intros Hv Hr s'. unfold pushRightPanel, target in *.
  destruct (resolve E ph st) as [tp ps]; simpl in *. step.
  rewrite (isPhaseActionIsValid_accepts tp s Hv). simpl. rewrite Hr. step.
  rewrite emitAndUpdateSettings_eq. reflexivity.
Qed.

Lemma pushRightPanel_absent E ph st ac rid s :
  phaseMatchesMode (isViewingRoom s) (resolve E ph st).1 = true ->
  byRoom s !! key (target rid s) = None ->
  pushRightPanel E ph st ac rid s = Ret tt s (persisted E s).
Proof.
  intros Hv Hr. unfold pushRightPanel, target in *.
  destruct (resolve E ph st) as [tp ps]; simpl in *. step.
  rewrite (isPhaseActionIsValid_accepts tp s Hv). simpl. rewrite Hr. step.
  rewrite emitAndUpdateSettings_eq. reflexivity.
Qed.

Lemma bind_pure {A B} (m : M Member Request Value Stored A)
    (f : A -> M Member Request Value Stored B) a s :
  m s = Ret a s [] -> bind m f s = f a s.
Proof. intros Hm. unfold bind. rewrite Hm. destruct (f a s); reflexivity. Qed.

Lemma setRightPanelCache_eq E p st s :
  let s' := set_byRoom
     (<[key (viewedRoomId s) :=
          {| history := [ {| phase := p;
                             state := Some (default emptyState st) |} ];
             isOpen := true |}]> (byRoom s)) s in
  setRightPanelCache E p st s = Ret tt s' (persisted E s').
Proof.
  intros s'. unfold setRightPanelCache. step.
  rewrite emitAndUpdateSettings_eq. reflexivity.
Qed.

Lemma resolve_no_state E ph : resolve E ph None = (ph, None).
Proof. unfold resolve, getVerificationRedirect. simpl. by destruct ph as [|[]|]. Qed.

Lemma resolve_no_redirect E ph st :
  getVerificationRedirect E {| phase := ph; state := st |} = None ->
  resolve E ph st = (ph, st).
Proof. intros H. unfold resolve. rewrite H. reflexivity. Qed.

(** Once the validity check has let the request through, [setRightPanel] is
    its chain of three tests. *)
Lemma setRightPanel_accepted E ph st ac rid s :
  let tp := (resolve E ph st).1 in
  let ps := (resolve E ph st).2 in
  phaseMatchesMode (isViewingRoom s) tp = true ->
  setRightPanel E ph st ac rid s =
    if phase_eqb tp (phase (currentPanel s)) && ac
       && negb (bool_decide (is_Some ps))
    then togglePanel E (target rid s) s
    else if phase_eqb tp (phase (currentPanelForRoom (target rid s) s))
            && bool_decide (is_Some ps)
    then
      match byRoom s !! key (target rid s) with
      | None => Throw s []
      | Some r =>
          match last (history r) with
          | None => Throw s []
          | Some top =>
              let s' := set_byRoom
                (<[key (target rid s) :=
                     {| history :=
                          <[length (history r) - 1 :=
                              {| phase := phase top; state := ps |}]> (history r);
                        isOpen := isOpen r |}]> (byRoom s)) s in
              Ret tt s' (persisted E s')
          end
      end
    else if negb (phase_eqb tp (phase (currentPanel s)))
    then setRightPanelCache E tp ps s
    else Ret tt s [].
Proof.
  intros tp ps Hv. subst tp ps. unfold setRightPanel, target.
  rewrite (bind_pure _ _ s s) by reflexivity.
  destruct (resolve E ph st) as [tp ps]; simpl in *.
  rewrite (bind_pure _ _ true s) by (apply isPhaseActionIsValid_accepts, Hv).
  simpl.
  repeat match goal with |- context [if ?c then _ else _] => destruct c end;
    try reflexivity.
  destruct (byRoom s !! _) as [r|]; [|reflexivity].
  destruct (last (history r)); [|reflexivity].
  step. rewrite emitAndUpdateSettings_eq. reflexivity.
Qed.

Lemma setRightPanel_rejected E ph st ac rid s :
  phaseMatchesMode (isViewingRoom s) (resolve E ph st).1 = false ->
  exists w, setRightPanel E ph st ac rid s = Ret tt s [LoggerWarn w].
Proof.
  intros Hv. unfold setRightPanel.
  rewrite (bind_pure _ _ s s) by reflexivity.
  destruct (resolve E ph st) as [tp ps]; simpl in *.
  destruct (isPhaseActionIsValid_rejects tp s Hv) as [w Hw].
  exists w. unfold bind. rewrite Hw. reflexivity.
Qed.

Lemma pushRightPanel_rejected E ph st ac rid s :
  phaseMatchesMode (isViewingRoom s) (resolve E ph st).1 = false ->
  exists w, pushRightPanel E ph st ac rid s = Ret tt s [LoggerWarn w].
Proof.
  intros Hv. unfold pushRightPanel.
  rewrite (bind_pure _ _ s s) by reflexivity.
  destruct (resolve E ph st) as [tp ps]; simpl in *.
  destruct (isPhaseActionIsValid_rejects tp s Hv) as [w Hw].
  exists w. unfold bind. rewrite Hw. reflexivity.
Qed.

(** ** Rejected requests *)

(** X19: a request whose resolved phase has no truthy entry in the enum
    object ([recognized] is false: [null], or a value that is neither a
    member nor a name inherited from [Object.prototype]), or is a group
    phase while a room is viewed, or is not a group phase while no room is
    viewed, makes [setRightPanel] and [pushRightPanel] return normally with
    the store as it was; the only thing sent out is one warning of the
    logger: no settings write, no UPDATE. *)
Theorem invalid_request_is_rejected E ph st ac rid s :
  let tp := (resolve E ph st).1 in
  recognized tp = false
  \/ (includes GROUP_PHASES tp = true /\ isViewingRoom s = true)
  \/ (includes GROUP_PHASES tp = false /\ isViewingRoom s = false) ->
  (exists w, setRightPanel E ph st ac rid s = Ret tt s [LoggerWarn w])
  /\ (exists w, pushRightPanel E ph st ac rid s = Ret tt s [LoggerWarn w]).
Proof.
  intros tp H.
  assert (Hv : phaseMatchesMode (isViewingRoom s) tp = false).
  { unfold phaseMatchesMode.
    destruct H as [-> | [[-> ->] | [-> ->]]]; [reflexivity | |];
      destruct (recognized tp); reflexivity. }
  split; [apply setRightPanel_rejected | apply pushRightPanel_rejected];
    exact Hv.
Qed.

(** ** The call that falls through every branch *)

(** C10: [setRightPanel] with no state and [allowClose = false], for the
    phase the active room (and the target room) already shows, returns with
    the store untouched and sends out nothing when the phase passes the
    validity check, and nothing but the logger's warning when it does not:
    no toggle, no update, no reset, no settings write, no UPDATE. *)
Theorem same_phase_without_state_or_close_is_noop E ph rid s :
  (resolve E ph None).1 = phase (currentPanel s) ->
  (resolve E ph None).1 = phase (currentPanelForRoom (target rid s) s) ->
  exists out,
    setRightPanel E ph None false rid s = Ret tt s out
    /\ (phaseMatchesMode (isViewingRoom s) ph = true -> out = [])
    /\ forallb isWarning out = true.
Proof.
  intros Hcur _.
  destruct (phaseMatchesMode (isViewingRoom s) ph) eqn:Hv.
  - exists []. split; [|done].
    rewrite setRightPanel_accepted
      by (rewrite resolve_no_state; exact Hv).
    rewrite resolve_no_state in *. simpl in *.
    unfold phase_eqb. rewrite Hcur.
    rewrite bool_decide_eq_true_2 by reflexivity. simpl.
    rewrite andb_false_r. reflexivity.
  - destruct (setRightPanel_rejected E ph None false rid s) as [w Hw].
    { rewrite resolve_no_state. exact Hv. }
    exists [LoggerWarn w]. split; [exact Hw|]. split; [discriminate|reflexivity].
Qed.

(** ** Toggling *)

Lemma set_byRoom_same s : set_byRoom (byRoom s) s = s.
Proof. by destruct s. Qed.

Lemma set_byRoom_twice m1 m2 s :
  set_byRoom m2 (set_byRoom m1 s) = set_byRoom m2 s.
Proof. reflexivity. Qed.

(** C9: where the target room has a record, [togglePanel] negates its
    [isOpen], keeps its history and every other record, and a second
    [togglePanel] gives back the very store the first one started from. *)
Theorem togglePanel_flips_and_twice_restores E1 E2 rid s r :
  byRoom s !! key (target rid s) = Some r ->
  exists s1 out1 out2,
    togglePanel E1 rid s = Ret tt s1 out1
    /\ byRoom s1 !! key (target rid s)
       = Some {| history := history r; isOpen := negb (isOpen r) |}
    /\ (forall k, k <> key (target rid s) -> byRoom s1 !! k = byRoom s !! k)
    /\ togglePanel E2 rid s1 = Ret tt s out2.
Proof.
  intros Hr. pose proof (togglePanel_eq E1 rid s r Hr) as H1. simpl in H1.
  eexists _, _, _. split; [exact H1|].
  split; [simpl; apply lookup_insert_eq|].
  split; [intros k Hk; simpl; by rewrite lookup_insert_ne|].
  match type of H1 with _ = Ret tt ?s1 _ => set (s1' := s1) end.
  assert (Ht : target rid s1' = target rid s) by reflexivity.
  assert (Hr1 : byRoom s1' !! key (target rid s1')
                = Some {| history := history r; isOpen := negb (isOpen r) |}).
  { rewrite Ht. simpl. apply lookup_insert_eq. }
  pose proof (togglePanel_eq E2 rid s1' _ Hr1) as H2. simpl in H2.
  rewrite H2. rewrite Ht. subst s1'. simpl.
  rewrite insert_insert_eq, negb_involutive.
  assert (Hs : set_byRoom
            (<[key (target rid s) := {| history := history r; isOpen := isOpen r |}]>
               (byRoom s)) s = s).
  { rewrite insert_id; [apply set_byRoom_same | by destruct r]. }
  unfold set_byRoom in *. simpl in *. rewrite Hs. reflexivity.
Qed.

(** ** Pushing and popping *)

(** The redirect never changes whether a request passes the validity check:
    it only turns the room phase [RoomMemberInfo] into the room phase
    [EncryptionPanel]. *)
Lemma resolve_keeps_validity E ph st viewing :
  phaseMatchesMode viewing (resolve E ph st).1 = phaseMatchesMode viewing ph.
Proof.
  unfold resolve, getVerificationRedirect. simpl.
  destruct ph as [|[]|]; try reflexivity.
  destruct st as [x|]; [|reflexivity].
  destruct (pendingVerificationRequestForUser E (member x)); reflexivity.
Qed.

(** Rewriting a record without touching its history shows the same
    histories, hence the same cards, everywhere. *)
Lemma historyOf_same_history s k r r' rid :
  byRoom s !! k = Some r -> history r' = history r ->
  historyOf rid (set_byRoom (<[k := r']> (byRoom s)) s) = historyOf rid s.
Proof.
  intros Hr Hh. unfold historyOf. simpl.
  destruct (decide (k = key rid)) as [<-|Hne].
  - by rewrite lookup_insert_eq, Hr.
  - by rewrite lookup_insert_ne.
Qed.

(** C8: where the target room has a record and the phase is valid for the
    mode, [pushRightPanel] followed by [popRightPanel] on the same room
    both return, and leave the history of that record, the current card of
    the active room and the current card of the target room as they were
    before the push (state included); the pop keeps the [isOpen] the push
    left, and no other record changes. *)
Theorem push_then_pop_restores_current E1 E2 ph st ac rid s r :
  byRoom s !! key (target rid s) = Some r ->
  phaseMatchesMode (isViewingRoom s) ph = true ->
  exists s1 out1 s2 out2,
    pushRightPanel E1 ph st ac rid s = Ret tt s1 out1
    /\ popRightPanel E2 rid s1 = Ret tt s2 out2
    /\ historyOf (target rid s) s2 = history r
    /\ currentPanel s2 = currentPanel s
    /\ currentPanelForRoom (target rid s) s2
       = currentPanelForRoom (target rid s) s
    /\ (isOpen <$> byRoom s2 !! key (target rid s))
       = (isOpen <$> byRoom s1 !! key (target rid s))
    /\ (forall k, k <> key (target rid s) -> byRoom s2 !! k = byRoom s !! k).
Proof.
  intros Hr Hv.
  assert (Hv1 : phaseMatchesMode (isViewingRoom s) (resolve E1 ph st).1 = true)
    by (rewrite resolve_keeps_validity; exact Hv).
  pose proof (pushRightPanel_existing E1 ph st ac rid s r Hv1 Hr) as H1.
  simpl in H1.
  match type of H1 with _ = Ret tt ?x _ => set (s1 := x) in * end.
  assert (Ht : target rid s1 = target rid s) by reflexivity.
  assert (Hr1 : byRoom s1 !! key (target rid s1)
     = Some {| history := history r ++
                 [ {| phase := (resolve E1 ph st).1;
                      state := (resolve E1 ph st).2 |} ];
               isOpen := if ac then isOpen r else true |}).
  { rewrite Ht. subst s1. simpl. apply lookup_insert_eq. }
  pose proof (popRightPanel_eq E2 rid s1 _ Hr1) as H2. simpl in H2.
  rewrite removelast_last, Ht in H2.
  match type of H2 with _ = Ret tt ?x _ => set (s2 := x) in * end.
  assert (Hs2 : s2 = set_byRoom
     (<[key (target rid s) :=
          {| history := history r; isOpen := if ac then isOpen r else true |}]>
        (byRoom s)) s).
  { subst s2 s1. unfold set_byRoom. simpl. by rewrite insert_insert_eq. }
  assert (Hh : forall x, historyOf x s2 = historyOf x s).
  { intros x. rewrite Hs2. by apply historyOf_same_history with (r := r). }
  exists s1, (persisted E1 s1), s2, (persisted E2 s2).
  split; [exact H1|]. split; [exact H2|].
  split; [rewrite Hh; unfold historyOf; by rewrite Hr|].
  assert (Hc : currentPanel s2 = currentPanel s).
  { unfold currentPanel, roomPhaseHistory.
    replace (viewedRoomId s2) with (viewedRoomId s) by (by rewrite Hs2).
    by rewrite Hh. }
  split; [exact Hc|].
  split; [unfold currentPanelForRoom; by rewrite Hh, Hc|].
  split.
  - rewrite Hs2. subst s1. simpl. by rewrite !lookup_insert_eq.
  - intros k Hk. rewrite Hs2. simpl. by rewrite lookup_insert_ne.
Qed.

(** ** Updating the state of the current card *)

Lemma resolve_state_present E ph x :
  is_Some (resolve E ph (Some x)).2.
Proof.
  unfold resolve.
  destruct (getVerificationRedirect E _) as [[q [y|]]|]; simpl; eauto.
Qed.

Lemma insert_top {A} (l : list A) (old new : A) :
  <[length (l ++ [old]) - 1 := new]> (l ++ [old]) = l ++ [new].
Proof.
  rewrite length_app. simpl.
  replace (length l + 1 - 1) with (length l + 0) by lia.
  by rewrite insert_app_r.
Qed.

(** C7, as the code has it: [setRightPanel] with a state, for the phase
    that (once resolved and checked) is the phase of the top card of the
    target room's record, returns and rewrites that card only: the history
    keeps its length and the cards below, the top card (the current card of
    the target room, and of the store when the target is the viewed room)
    keeps its phase and carries the resolved state: the state given when no
    redirect applies, the pending request and the member, and nothing else,
    when the request was redirected. *)
Theorem same_phase_with_state_updates_in_place E ph x ac rid s r top :
  let tp := (resolve E ph (Some x)).1 in
  let ps := (resolve E ph (Some x)).2 in
  phaseMatchesMode (isViewingRoom s) tp = true ->
  byRoom s !! key (target rid s) = Some r ->
  last (history r) = Some top ->
  phase top = tp ->
  exists s' out,
    setRightPanel E ph (Some x) ac rid s = Ret tt s' out
    /\ length (historyOf (target rid s) s') = length (history r)
    /\ removelast (historyOf (target rid s) s') = removelast (history r)
    /\ currentPanelForRoom (target rid s) s' = {| phase := phase top; state := ps |}
    /\ (key (viewedRoomId s) = key (target rid s) ->
        currentPanel s' = {| phase := phase top; state := ps |})
    /\ (getVerificationRedirect E {| phase := ph; state := Some x |} = None ->
        ps = Some x)
    /\ (forall R, ph = P RoomMemberInfo ->
        pendingVerificationRequestForUser E (member x) = Some R ->
        ps = Some {| member := member x; verificationRequest := Some R;
                     otherFields := [] |})
    /\ (forall k, k <> key (target rid s) -> byRoom s' !! k = byRoom s !! k).
Proof.
  intros tp ps Hv Hr Htop Hph.
  pose proof (setRightPanel_accepted E ph (Some x) ac rid s Hv) as Hset.
  fold tp ps in Hset.
  destruct (resolve_state_present E ph x) as [y Hy]. fold ps in Hy.
  assert (Hcur : currentPanelForRoom (target rid s) s = top).
  { unfold currentPanelForRoom, historyOf. by rewrite Hr, Htop. }
  rewrite Hcur, Hph in Hset. unfold phase_eqb in Hset.
  rewrite (bool_decide_eq_true_2 (tp = tp)) in Hset by reflexivity.
  rewrite Hy in Hset.
  rewrite (bool_decide_eq_true_2 (is_Some (Some y))) in Hset by eauto.
  rewrite andb_false_r in Hset. simpl in Hset.
  rewrite Hr, Htop in Hset.
  apply last_Some in Htop as [l Hl].
  rewrite Hl, insert_top in Hset.
  eexists _, _. split; [exact Hset|].
  assert (Hh : historyOf (target rid s)
     (set_byRoom
        (<[key (target rid s) :=
             {| history := l ++ [ {| phase := phase top; state := Some y |} ];
                isOpen := isOpen r |}]> (byRoom s)) s)
     = l ++ [ {| phase := phase top; state := Some y |} ]).
  { unfold historyOf. simpl. by rewrite lookup_insert_eq. }
  rewrite Hy, Hh, Hl.
  split; [by rewrite !length_app|].
  split; [by rewrite !removelast_last|].
  split; [unfold currentPanelForRoom; by rewrite Hh, last_snoc|].
  split.
  - intros Hk. unfold currentPanel, roomPhaseHistory, historyOf, set_byRoom.
    cbn [byRoom viewedRoomId]. rewrite Hk, lookup_insert_eq.
    cbn [history]. by rewrite last_snoc.
  - split; [|split].
    + intros Hnone. rewrite <- Hy. subst ps.
      by rewrite (resolve_no_redirect _ _ _ Hnone).
    + intros R -> HR. rewrite <- Hy. subst ps.
      unfold resolve, getVerificationRedirect. cbn [phase state].
      by rewrite HR.
    + intros k Hk. simpl. by rewrite lookup_insert_ne.
Qed.

(** ** The reset *)

(** When the resolved phase is valid, is not the phase the viewed room
    shows, and the update in place does not apply, [setRightPanel] ends in
    [setRightPanelCache]: the record written is the one of the viewed room,
    whatever [roomId] was given. *)
Lemma setRightPanel_hard_reset E ph st ac rid s :
  let tp := (resolve E ph st).1 in
  let ps := (resolve E ph st).2 in
  phaseMatchesMode (isViewingRoom s) tp = true ->
  tp <> phase (currentPanel s) ->
  tp <> phase (currentPanelForRoom (target rid s) s) \/ ps = None ->
  let s' := set_byRoom
     (<[key (viewedRoomId s) :=
          {| history := [ {| phase := tp;
                             state := Some (default emptyState ps) |} ];
             isOpen := true |}]> (byRoom s)) s in
  setRightPanel E ph st ac rid s = Ret tt s' (persisted E s').
Proof.
  intros tp ps Hv Hcur Hupd s'.
  rewrite setRightPanel_accepted by exact Hv. fold tp ps.
  unfold phase_eqb. rewrite (bool_decide_eq_false_2 _ Hcur). cbn [andb negb].
  assert (Hno : bool_decide (tp = phase (currentPanelForRoom (target rid s) s))
                && bool_decide (is_Some ps) = false).
  { destruct Hupd as [Hne | ->].
    - by rewrite (bool_decide_eq_false_2 _ Hne).
    - rewrite andb_false_iff. right. apply bool_decide_eq_false_2.
      by intros [? ?]. }
  rewrite Hno. apply setRightPanelCache_eq.
Qed.

(** ** Requests that carry a state *)

Lemma historyOf_key rid1 rid2 s :
  key rid1 = key rid2 -> historyOf rid1 s = historyOf rid2 s.
Proof. intros Hk. unfold historyOf. by rewrite Hk. Qed.

Lemma currentPanelForRoom_viewed rid s :
  key rid = key (viewedRoomId s) -> currentPanelForRoom rid s = currentPanel s.
Proof.
  intros Hk. unfold currentPanelForRoom, currentPanel, roomPhaseHistory.
  rewrite (historyOf_key _ _ s Hk). by destruct (last _).
Qed.

Lemma currentPanel_insert_viewed s r :
  currentPanel (set_byRoom (<[key (viewedRoomId s) := r]> (byRoom s)) s)
  = default emptyPanel (last (history r)).
Proof.
  unfold currentPanel, roomPhaseHistory, historyOf, set_byRoom.
  cbn [byRoom viewedRoomId]. rewrite lookup_insert_eq. by destruct (last _).
Qed.

(** A valid request with a state, aimed at the viewed room, always ends
    with that room showing the resolved card: by an update in place when
    the phase is the one shown, by a reset otherwise. *)
Lemma setRightPanel_with_state_lands E ph x ac rid s :
  let tp := (resolve E ph (Some x)).1 in
  let ps := (resolve E ph (Some x)).2 in
  phaseMatchesMode (isViewingRoom s) tp = true ->
  key (target rid s) = key (viewedRoomId s) ->
  exists s' out,
    setRightPanel E ph (Some x) ac rid s = Ret tt s' out
    /\ currentPanel s' = {| phase := tp; state := ps |}.
Proof.
  intros tp ps Hv Hk.
  pose proof (setRightPanel_accepted E ph (Some x) ac rid s Hv) as Hset.
  fold tp ps in Hset.
  destruct (resolve_state_present E ph x) as [y Hy]. fold ps in Hy.
  rewrite Hy in *.
  rewrite (bool_decide_eq_true_2 (is_Some (Some y))) in Hset by eauto.
  rewrite andb_false_r, andb_true_r in Hset. cbn [negb] in Hset.
  rewrite (currentPanelForRoom_viewed _ _ Hk) in Hset.
  rewrite Hk in Hset.
  destruct (phase_eqb tp (phase (currentPanel s))) eqn:Heq.
  - apply bool_decide_eq_true_1 in Heq.
    unfold currentPanel, roomPhaseHistory, historyOf in Heq.
    destruct (byRoom s !! key (viewedRoomId s)) as [r|] eqn:Hr.
    2:{ simpl in Heq. rewrite Heq in Hv. discriminate. }
    destruct (last (history r)) as [top|] eqn:Htop.
    2:{ simpl in Heq. rewrite Heq in Hv. discriminate. }
    apply last_Some in Htop as [l Hl]. rewrite Hl, insert_top in Hset.
    eexists _, _. split; [exact Hset|].
    rewrite currentPanel_insert_viewed. cbn [history].
    rewrite last_snoc. simpl. by rewrite Heq.
  - cbn [negb] in Hset. rewrite setRightPanelCache_eq in Hset.
    eexists _, _. split; [exact Hset|].
    by rewrite currentPanel_insert_viewed.
Qed.

Lemma pushRightPanel_lands E ph st ac rid s :
  phaseMatchesMode (isViewingRoom s) (resolve E ph st).1 = true ->
  key (target rid s) = key (viewedRoomId s) ->
  is_Some (byRoom s !! key (viewedRoomId s)) ->
  exists s' out,
    pushRightPanel E ph st ac rid s = Ret tt s' out
    /\ currentPanel s'
       = {| phase := (resolve E ph st).1; state := (resolve E ph st).2 |}.
Proof.
  intros Hv Hk [r Hr]. rewrite <- Hk in Hr.
  pose proof (pushRightPanel_existing E ph st ac rid s r Hv Hr) as Hpush.
  cbn zeta in Hpush. rewrite Hk in Hpush.
  eexists _, _. split; [exact Hpush|].
  rewrite currentPanel_insert_viewed. cbn [history]. by rewrite last_snoc.
Qed.

(** C5, as the code has it: a request for [RoomMemberInfo] with a state
    whose member is [m].  In room mode and aimed at the viewed room,
    [setRightPanel] returns with the current card being [EncryptionPanel]
    with exactly the pending request and [m] when a request is pending for
    [m], and [RoomMemberInfo] with the state given when none is;
    [pushRightPanel] does the same once the viewed room has a record.  In
    group mode both setters turn the request down, redirected or not: they
    return with the store as it was and one warning. *)
Theorem member_info_goes_to_pending_verification E x m ac rid s :
  member x = Some m ->
  let card :=
    match pendingVerificationRequestForUser E (Some m) with
    | Some R =>
        {| phase := P EncryptionPanel;
           state := Some {| member := Some m; verificationRequest := Some R;
                            otherFields := [] |} |}
    | None => {| phase := P RoomMemberInfo; state := Some x |}
    end in
  (isViewingRoom s = true ->
   key (target rid s) = key (viewedRoomId s) ->
   (exists s' out,
      setRightPanel E (P RoomMemberInfo) (Some x) ac rid s = Ret tt s' out
      /\ currentPanel s' = card)
   /\ (is_Some (byRoom s !! key (viewedRoomId s)) ->
       exists s' out,
         pushRightPanel E (P RoomMemberInfo) (Some x) ac rid s = Ret tt s' out
         /\ currentPanel s' = card))
  /\ (isViewingRoom s = false ->
      (exists w, setRightPanel E (P RoomMemberInfo) (Some x) ac rid s
                 = Ret tt s [LoggerWarn w])
      /\ (exists w, pushRightPanel E (P RoomMemberInfo) (Some x) ac rid s
                    = Ret tt s [LoggerWarn w])).
Proof.
  intros Hm card.
  assert (Hres : resolve E (P RoomMemberInfo) (Some x)
                 = (phase card, state card)).
  { subst card. unfold resolve, getVerificationRedirect. simpl. rewrite Hm.
    by destruct (pendingVerificationRequestForUser E (Some m)). }
  assert (Hval : phaseMatchesMode (isViewingRoom s)
                   (resolve E (P RoomMemberInfo) (Some x)).1
                 = isViewingRoom s).
  { rewrite resolve_keeps_validity. by destruct (isViewingRoom s). }
  split.
  - intros Hroom Hk. rewrite <- Hval in Hroom. clear Hval.
    rename Hroom into Hval. split.
    + destruct (setRightPanel_with_state_lands E _ x ac rid s Hval Hk)
        as (s' & out & Hset & Hcur).
      exists s', out. split; [exact Hset|].
      rewrite Hcur, Hres. by destruct card.
    + intros Hrec.
      destruct (pushRightPanel_lands E _ (Some x) ac rid s Hval Hk Hrec)
        as (s' & out & Hpush & Hcur).
      exists s', out. split; [exact Hpush|].
      rewrite Hcur, Hres. by destruct card.
  - intros Hgroup. rewrite <- Hval in Hgroup.
    split; [by apply setRightPanel_rejected | by apply pushRightPanel_rejected].
Qed.

(** ** Switching rooms *)

Lemma loadCacheFromSettings_eq E s :
  exists s',
    loadCacheFromSettings E s = Ret tt s' []
    /\ viewedRoomId s' = viewedRoomId s
    /\ isViewingRoom s' = isViewingRoom s
    /\ (forall k, k <> key (viewedRoomId s) -> byRoom s' !! k = byRoom s !! k)
    /\ byRoom s' !! key (viewedRoomId s)
       = match byRoom s !! key (viewedRoomId s) with
         | Some r => Some r
         | None =>
             match getRoom E (viewedRoomId s) with
             | Some room =>
                 convertToStateRoom E
                   (getValue E "RightPanel.phases" (viewedRoomId s)) room
             | None => None
             end
         end.
Proof.
  unfold loadCacheFromSettings. step.
  destruct (getRoom E (viewedRoomId s)) as [room|]; step.
  - eexists. split; [reflexivity|]. simpl. repeat split; try done.
    + intros k Hk. destruct (byRoom s !! key (viewedRoomId s)); [done|].
      destruct (convertToStateRoom E _ room); [|done].
      by rewrite lookup_insert_ne.
    + destruct (byRoom s !! key (viewedRoomId s)) eqn:Hr; [done|].
      destruct (convertToStateRoom E _ room); [|done].
      by rewrite lookup_insert_eq.
  - exists s. repeat split; try done. by destruct (byRoom s !! _).
Qed.

(** C4, as the code has it: a [ViewRoom] or [view_group] action for a room
    [B] other than the viewed room [A] returns with [B] viewed in the mode
    of the action.  The record of [A] is reset to one card, open, before
    that (the settings write of the reset still goes under [A]) in two
    cases only: leaving group mode for a room while [A] shows
    [RoomMemberInfo], [Room3pidMemberInfo] or [EncryptionPanel] (reset to
    [RoomMemberList]), and leaving room mode for a group while [A] shows
    [GroupMemberInfo] (reset to [GroupMemberList]).  Otherwise, and so when
    room mode is left for a group while [A] shows [RoomMemberInfo], the
    record of [A] stays as it is.  The record of [B] is the one the store
    held for [B]; only when the store holds a subscription token and has no
    record for [B] is it the one converted from the settings of [B]. *)
Theorem switching_rooms_coerces_by_direction E a B s :
  a = ViewRoom \/ a = view_group ->
  key B <> key (viewedRoomId s) ->
  let A := viewedRoomId s in
  exists s' out,
    onDispatch E {| action := a; room_id := B |} s = Ret tt s' out
    /\ viewedRoomId s' = B
    /\ isViewingRoom s' = bool_decide (a = ViewRoom)
    /\ match coercion (isViewingRoom s) a (phase (currentPanel s)) with
       | Some q =>
           let reset :=
             {| history := [ {| phase := P q; state := Some emptyState |} ];
                isOpen := true |} in
           byRoom s' !! key A = Some reset
           /\ exists out',
               out = persisted E (set_byRoom (<[key A := reset]> (byRoom s)) s)
                     ++ out'
       | None => byRoom s' !! key A = byRoom s !! key A
       end
    /\ (isViewingRoom s = true -> a = view_group ->
        phase (currentPanel s) = P RoomMemberInfo ->
        byRoom s' !! key A = byRoom s !! key A)
    /\ byRoom s' !! key B
       = if roomStoreToken s
         then match byRoom s !! key B with
              | Some r => Some r
              | None =>
                  match getRoom E B with
                  | Some room =>
                      convertToStateRoom E (getValue E "RightPanel.phases" B) room
                  | None => None
                  end
              end
         else byRoom s !! key B.
Proof.
  intros Ha Hk A.
  assert (HB : B <> viewedRoomId s) by (intros ->; by apply Hk).
  (* the store once the coercion has run, and what it sent out *)
  set (s1 := match coercion (isViewingRoom s) a (phase (currentPanel s)) with
             | Some q =>
                 set_byRoom
                   (<[key A := {| history := [ {| phase := P q;
                                                   state := Some emptyState |} ];
                                  isOpen := true |}]> (byRoom s)) s
             | None => s
             end).
  set (out1 := match coercion (isViewingRoom s) a (phase (currentPanel s)) with
               | Some _ => persisted E s1
               | None => []
               end).
  set (s2 := set_viewed B (bool_decide (a = ViewRoom)) s1).
  assert (Hfields : viewedRoomId s1 = A /\ roomStoreToken s1 = roomStoreToken s).
  { subst s1. by destruct (coercion _ _ _). }
  destruct Hfields as [HA1 Htok1].
  assert (HkB1 : byRoom s1 !! key B = byRoom s !! key B).
  { subst s1. destruct (coercion _ _ _); [|done].
    simpl. rewrite lookup_insert_ne; [done|].
    intros Heq. apply Hk. symmetry. exact Heq. }
  destruct (loadCacheFromSettings_eq E s2)
    as (s3 & Hload & Hv3 & Hm3 & Hother3 & Hat3).
  assert (Hrun : onDispatch E {| action := a; room_id := B |} s
                 = if roomStoreToken s
                   then Ret tt s3 (out1 ++ persisted E s3)
                   else Ret tt s2 (out1 ++ [])).
  { unfold onDispatch. cbn [action room_id].
    assert (Hbody : forall k : M Member Request Value Stored unit,
      (s0 <- get ;;
       if bool_decide (B = viewedRoomId s0) then ret tt
       else
         (if negb (bool_decide
                     ((if isViewingRoom s0 then ViewRoom else view_group) = a))
          then
            if bool_decide (a = ViewRoom)
               && includes MEMBER_INFO_PHASES (phase (currentPanel s0))
            then setRightPanelCache E (P RoomMemberList) (Some emptyState)
            else if bool_decide (a = view_group)
                    && phase_eqb (phase (currentPanel s0)) (P GroupMemberInfo)
            then setRightPanelCache E (P GroupMemberList) (Some emptyState)
            else ret tt
          else ret tt) ;;; k) s
      = match k s1 with
        | Ret b t o => Ret b t (out1 ++ o)
        | Throw t o => Throw t (out1 ++ o)
        end).
    { intros k. rewrite (bind_pure _ _ s s) by reflexivity.
      rewrite bool_decide_eq_false_2 by exact HB.
      subst out1 s1. unfold coercion, bind.
      destruct Ha as [-> | ->], (isViewingRoom s); simpl;
        try (destruct (k s); reflexivity).
      - destruct (includes MEMBER_INFO_PHASES (phase (currentPanel s))); simpl.
        + rewrite setRightPanelCache_eq. reflexivity.
        + destruct (k s); reflexivity.
      - destruct (phase_eqb (phase (currentPanel s)) (P GroupMemberInfo)); simpl.
        + rewrite setRightPanelCache_eq. reflexivity.
        + destruct (k s); reflexivity. }
    destruct Ha as [-> | ->]; rewrite Hbody; clear Hbody;
      unfold bind at 1; unfold modify at 1; cbn [app];
      rewrite (bind_pure _ _ _ _ (eq_refl : get _ = Ret _ _ []));
      fold s2; replace (roomStoreToken s2) with (roomStoreToken s)
        by (by rewrite <- Htok1);
      destruct (roomStoreToken s); unfold ret; try reflexivity;
      unfold bind; rewrite Hload, emitAndUpdateSettings_eq; reflexivity. }
  assert (HkA : key A <> key B).
  { intros Heq. apply Hk. symmetry. exact Heq. }
  exists (if roomStoreToken s then s3 else s2),
         (if roomStoreToken s then out1 ++ persisted E s3 else out1 ++ []).
  split; [rewrite Hrun; by destruct (roomStoreToken s)|].
  split; [destruct (roomStoreToken s); [rewrite Hv3|]; reflexivity|].
  split; [destruct (roomStoreToken s); [rewrite Hm3|]; reflexivity|].
  assert (HatA : byRoom (if roomStoreToken s then s3 else s2) !! key A
                 = byRoom s1 !! key A).
  { destruct (roomStoreToken s); [|reflexivity].
    rewrite Hother3; [reflexivity|]. exact HkA. }
  assert (Hcase :
    match coercion (isViewingRoom s) a (phase (currentPanel s)) with
    | Some q =>
        let reset :=
          {| history := [ {| phase := P q; state := Some emptyState |} ];
             isOpen := true |} in
        byRoom (if roomStoreToken s then s3 else s2) !! key A = Some reset
        /\ exists out',
            (if roomStoreToken s then out1 ++ persisted E s3 else out1 ++ [])
            = persisted E (set_byRoom (<[key A := reset]> (byRoom s)) s) ++ out'
    | None =>
        byRoom (if roomStoreToken s then s3 else s2) !! key A
        = byRoom s !! key A
    end).
  { rewrite HatA. subst out1 s1.
    destruct (coercion (isViewingRoom s) a (phase (currentPanel s))); [|done].
    cbn zeta. split; [simpl; apply lookup_insert_eq|].
    destruct (roomStoreToken s); eauto. }
  split; [exact Hcase|].
  split.
  - intros Hroom -> Hphase. rewrite Hroom, Hphase in Hcase. exact Hcase.
  - destruct (roomStoreToken s).
    + change (viewedRoomId s2) with B in Hat3.
      change (byRoom s2) with (byRoom s1) in Hat3.
      rewrite Hat3. by rewrite HkB1.
    + cbn [s2 set_viewed byRoom]. exact HkB1.
Qed.

(** ** Histories with an entry in them *)

Lemma histories_nonempty_insert s k r :
  histories_nonempty s -> history r <> [] ->
  histories_nonempty (set_byRoom (<[k := r]> (byRoom s)) s).
Proof.
  intros Hs Hr k' r'. simpl. destruct (decide (k = k')) as [<-|Hne].
  - rewrite lookup_insert_eq. by intros [= <-].
  - rewrite lookup_insert_ne by done. apply Hs.
Qed.

Lemma togglePanel_absent E rid s :
  byRoom s !! key (target rid s) = None -> togglePanel E rid s = Throw s [].
Proof. intros Hr. unfold togglePanel, target in *. step. by rewrite Hr. Qed.

Lemma popRightPanel_absent E rid s :
  byRoom s !! key (target rid s) = None -> popRightPanel E rid s = Throw s [].
Proof. intros Hr. unfold popRightPanel, target in *. step. by rewrite Hr. Qed.

Lemma togglePanel_keeps_nonempty E rid s :
  histories_nonempty s -> histories_nonempty (final (togglePanel E rid s)).
Proof.
  intros Hs. destruct (byRoom s !! key (target rid s)) as [r|] eqn:Hr.
  - rewrite (togglePanel_eq E rid s r Hr). simpl.
    apply histories_nonempty_insert; [done|]. simpl. by apply (Hs _ _ Hr).
  - by rewrite togglePanel_absent.
Qed.

Lemma pushRightPanel_keeps_nonempty E ph st ac rid s :
  histories_nonempty s ->
  histories_nonempty (final (pushRightPanel E ph st ac rid s)).
Proof.
  intros Hs.
  destruct (phaseMatchesMode (isViewingRoom s) (resolve E ph st).1) eqn:Hv.
  - destruct (byRoom s !! key (target rid s)) as [r|] eqn:Hr.
    + rewrite (pushRightPanel_existing E ph st ac rid s r Hv Hr). simpl.
      apply histories_nonempty_insert; [done|]. simpl.
      by destruct (history r).
    + by rewrite pushRightPanel_absent.
  - destruct (pushRightPanel_rejected E ph st ac rid s Hv) as [w ->]. done.
Qed.

Lemma setRightPanel_keeps_nonempty E ph st ac rid s :
  histories_nonempty s ->
  histories_nonempty (final (setRightPanel E ph st ac rid s)).
Proof.
  intros Hs.
  destruct (phaseMatchesMode (isViewingRoom s) (resolve E ph st).1) eqn:Hv.
  2:{ destruct (setRightPanel_rejected E ph st ac rid s Hv) as [w ->]. done. }
  rewrite setRightPanel_accepted by exact Hv.
  destruct (_ && _ && _).
  { by apply togglePanel_keeps_nonempty. }
  destruct (_ && _).
  { destruct (byRoom s !! key (target rid s)) as [r|] eqn:Hr; [|done].
    destruct (last (history r)) as [top|] eqn:Htop; [|done].
    simpl. apply histories_nonempty_insert; [done|]. simpl.
    apply last_Some in Htop as [l ->]. rewrite insert_top.
    by destruct l. }
  destruct (negb _); [|done].
  rewrite setRightPanelCache_eq. simpl.
  by apply histories_nonempty_insert.
Qed.

Lemma togglePanel_creates_nothing E rid s k :
  byRoom s !! k = None -> byRoom (final (togglePanel E rid s)) !! k = None.
Proof.
  intros Hk. destruct (byRoom s !! key (target rid s)) as [r|] eqn:Hr.
  - rewrite (togglePanel_eq E rid s r Hr). cbn [final byRoom set_byRoom].
    rewrite lookup_insert_ne; [done|]. intros <-. congruence.
  - by rewrite togglePanel_absent.
Qed.

(** A record that was not there before a setter ran and is there afterwards
    has exactly one card: only the reset of [setRightPanel] makes records. *)
Lemma created_record_has_one_card E c s k r :
  byRoom s !! k = None ->
  byRoom (final (call E c s)) !! k = Some r ->
  length (history r) = 1.
Proof.
  intros Hk. destruct c as [ph st ac rid | ph st ac rid | rid | rid]; cbn [call].
  - destruct (phaseMatchesMode (isViewingRoom s) (resolve E ph st).1) eqn:Hv.
    2:{ destruct (setRightPanel_rejected E ph st ac rid s Hv) as [w ->].
        cbn [final]. congruence. }
    rewrite setRightPanel_accepted by exact Hv.
    destruct (_ && _ && _).
    { rewrite togglePanel_creates_nothing by done. discriminate. }
    destruct (_ && _).
    { destruct (byRoom s !! key (target rid s)) as [r0|] eqn:Hr;
        [|cbn [final]; congruence].
      destruct (last (history r0)); [|cbn [final]; congruence].
      cbn zeta. cbn [final byRoom set_byRoom].
      rewrite lookup_insert_ne; [congruence|]. intros <-. congruence. }
    destruct (negb _); [|cbn [final]; congruence].
    rewrite setRightPanelCache_eq. cbn [final byRoom set_byRoom].
    destruct (decide (key (viewedRoomId s) = k)) as [<-|Hne].
    + rewrite lookup_insert_eq. by intros [= <-].
    + rewrite lookup_insert_ne by done. congruence.
  - destruct (phaseMatchesMode (isViewingRoom s) (resolve E ph st).1) eqn:Hv.
    2:{ destruct (pushRightPanel_rejected E ph st ac rid s Hv) as [w ->].
        cbn [final]. congruence. }
    destruct (byRoom s !! key (target rid s)) as [r0|] eqn:Hr.
    + rewrite (pushRightPanel_existing E ph st ac rid s r0 Hv Hr).
      cbn [final byRoom set_byRoom].
      rewrite lookup_insert_ne; [congruence|]. intros <-. congruence.
    + rewrite pushRightPanel_absent by done. cbn [final]. congruence.
  - destruct (byRoom s !! key (target rid s)) as [r0|] eqn:Hr.
    + rewrite (popRightPanel_eq E rid s r0 Hr). cbn [final byRoom set_byRoom].
      rewrite lookup_insert_ne; [congruence|]. intros <-. congruence.
    + rewrite popRightPanel_absent by done. cbn [final]. congruence.
  - rewrite togglePanel_creates_nothing by done. discriminate.
Qed.

(** C2, as the code has it: from a store whose records all have an entry,
    any sequence of [setRightPanel], [pushRightPanel] and [togglePanel]
    calls leaves every record with an entry, and a record that a setter
    creates on the store so reached starts with exactly one.
    [popRightPanel] takes the last entry off whatever the length: on a
    record of the store so reached it returns, leaves the history without
    its last entry and [isOpen] as it was, so that the history still has an
    entry exactly when it had two or more. *)
Theorem only_pop_empties_a_history
    (cs : list (Env Member Request Value Room Stored
                * Call Member Request Value)) E rid s :
  histories_nonempty s ->
  Forall (fun ec => isPop ec.2 = false) cs ->
  histories_nonempty (run cs s)
  /\ (forall E' c k r,
        byRoom (run cs s) !! k = None ->
        byRoom (final (call E' c (run cs s))) !! k = Some r ->
        length (history r) = 1)
  /\ forall r,
      byRoom (run cs s) !! key (target rid (run cs s)) = Some r ->
      exists s' out,
        popRightPanel E rid (run cs s) = Ret tt s' out
        /\ byRoom s' !! key (target rid (run cs s))
           = Some {| history := removelast (history r); isOpen := isOpen r |}
        /\ (removelast (history r) <> [] <-> 2 <= length (history r)).
Proof.
  intros Hs Hcs.
  assert (Hrun : histories_nonempty (run cs s)).
  { revert s Hs. induction Hcs as [|[E' c] cs Hc _ IH]; intros s Hs.
    - exact Hs.
    - simpl. apply IH. destruct c; simpl in *; try discriminate.
      + by apply setRightPanel_keeps_nonempty.
      + by apply pushRightPanel_keeps_nonempty.
      + by apply togglePanel_keeps_nonempty. }
  split; [exact Hrun|].
  split; [intros E' c k r; apply created_record_has_one_card|].
  intros r Hr.
  pose proof (popRightPanel_eq E rid _ r Hr) as Hpop. cbn zeta in Hpop.
  eexists _, _. split; [exact Hpop|].
  split; [simpl; apply lookup_insert_eq|].
  pose proof (Hrun _ _ Hr) as Hne.
  destruct (history r) as [|e1 [|e2 l]]; [done| |].
  - simpl. split; [done|lia].
  - split; [|done]. intros _. simpl. lia.
Qed.

End Properties.

(** * The store at work *)

Import Demo.

(** C1: room A is viewed for the first time and has no record.  Two valid
    [pushRightPanel] calls both return and notify, and leave the store as
    it was: still no record for A, a history of length 0 instead of 2, and
    a current card whose phase is [null] instead of the phase pushed last.
    The record the code builds for an absent room stays in a local
    variable. *)
Theorem push_on_fresh_room_stores_nothing :
  let r1 := pushRightPanel quiet (P RoomSummary) None true IdNull inRoomA in
  let r2 := pushRightPanel quiet (P FilePanel) None true IdNull (final r1) in
  byRoom inRoomA !! roomA = None
  /\ phaseMatchesMode (isViewingRoom inRoomA) (P RoomSummary) = true
  /\ phaseMatchesMode (isViewingRoom inRoomA) (P FilePanel) = true
  /\ threw r1 = false /\ threw r2 = false
  /\ EmitUpdate ∈ output r1 /\ EmitUpdate ∈ output r2
  /\ final r1 = inRoomA /\ final r2 = inRoomA
  /\ byRoom (final r2) !! roomA = None
  /\ length (roomPhaseHistory (final r1)) = 0
  /\ length (roomPhaseHistory (final r2)) = 0
  /\ phase (currentPanel (final r2)) = PNull.
Proof.
  cbn zeta. repeat split; try (vm_compute; reflexivity).
  - vm_compute. set_solver.
  - vm_compute. set_solver.
Qed.

(** C2 fails: [setRightPanel] creates the record of room A with one card,
    and the [popRightPanel] that follows leaves that record with an empty
    history. *)
Lemma pop_empties_a_one_card_history :
  let s1 := run [(quiet, CallSet (P RoomSummary) None true IdNull)] inRoomA in
  let s2 := run [(quiet, CallSet (P RoomSummary) None true IdNull);
                 (quiet, CallPop IdNull)] inRoomA in
  byRoom s1 !! roomA
    = Some {| history := [card RoomSummary emptyState]; isOpen := true |}
  /\ byRoom s2 !! roomA = Some {| history := []; isOpen := true |}
  /\ ~ histories_nonempty s2.
Proof.
  cbn zeta. split; [vm_compute; reflexivity|].
  assert (H : byRoom (run [(quiet, CallSet (P RoomSummary) None true IdNull);
                           (quiet, CallPop IdNull)] inRoomA) !! roomA
              = Some {| history := []; isOpen := true |})
    by (vm_compute; reflexivity).
  split; [exact H|]. intros Hne. exact (Hne _ _ H eq_refl).
Qed.

(** C3: room A is viewed and shows its summary, room B has a record that
    shows its member list.  [setRightPanel] for [FilePanel], valid and
    different from both cards, aimed at room B, returns with the record of
    room B untouched and the record of the viewed room A replaced by the
    single card.  The reset writes under [viewedRoomId], where the toggle
    and the update of the same setter write under the room asked for. *)
Theorem hard_reset_lands_on_viewed_room :
  let s := inRoomA_afterB in
  let res := setRightPanel quiet (P FilePanel) None true (Id roomB) s in
  viewedRoomId s = Id roomA
  /\ phaseMatchesMode (isViewingRoom s) (P FilePanel) = true
  /\ currentPanel s = card RoomSummary emptyState
  /\ currentPanelForRoom (Id roomB) s = card RoomMemberList emptyState
  /\ threw res = false
  /\ byRoom (final res) !! roomB = byRoom s !! roomB
  /\ byRoom (final res) !! roomB
     = Some {| history := [card RoomMemberList emptyState]; isOpen := true |}
  /\ byRoom (final res) !! roomA
     = Some {| history := [card FilePanel emptyState]; isOpen := true |}.
Proof. cbn zeta. repeat split; vm_compute; reflexivity. Qed.

(** C4 fails: room A is viewed in room mode and shows the member info of
    Alice; a [view_group] action for group G returns with G viewed in group
    mode and the record of A still topped by [RoomMemberInfo] with Alice's
    state, not by [RoomMemberList]. *)
Lemma room_to_group_leaves_member_info :
  let s := inRoomA_memberInfo in
  let res := onDispatch quiet {| action := view_group; room_id := Id groupG |} s in
  viewedRoomId s = Id roomA /\ isViewingRoom s = true
  /\ currentPanel s = card RoomMemberInfo aliceState
  /\ threw res = false
  /\ viewedRoomId (final res) = Id groupG
  /\ isViewingRoom (final res) = false
  /\ last (historyOf (Id roomA) (final res))
     = Some (card RoomMemberInfo aliceState)
  /\ last (historyOf (Id roomA) (final res))
     <> Some (card RoomMemberList emptyState).
Proof. cbn zeta. repeat split; try (vm_compute; reflexivity). vm_compute. discriminate. Qed.

(** C5 fails: group G is viewed in group mode and shows its member list;
    request 7 is pending for Alice.  [setRightPanel] for [RoomMemberInfo]
    with Alice as member is turned down by the validity check: the store is
    as before and the current card is the member list of the group, not
    [EncryptionPanel] with the request. *)
Lemma member_info_request_turned_down_in_group_mode :
  let res := setRightPanel verifying (P RoomMemberInfo) (Some aliceState)
               true IdNull inGroupG in
  member aliceState = Some alice
  /\ pendingVerificationRequestForUser verifying (Some alice) = Some 7
  /\ threw res = false
  /\ final res = inGroupG
  /\ currentPanel (final res) = card GroupMemberList emptyState
  /\ currentPanel (final res) <> card EncryptionPanel aliceVerification.
Proof. cbn zeta. repeat split; try (vm_compute; reflexivity). vm_compute. discriminate. Qed.

(** C6: room A is viewed in room mode.  The value ['constructor'] is no
    member of the enum, yet the enum object inherits a property of that
    name, so the check for unknown phases lets it through and, not being a
    group phase, it is valid in room mode.  [setRightPanel] does not turn
    the request down: no warning is logged, the record of room A is reset to
    the card of that phase and the subscribers are notified;
    [pushRightPanel] puts the card on an existing history all the same.  A
    value that is neither a member nor such a name is turned down. *)
Theorem inherited_name_passes_for_a_phase :
  let ph := PUnknown "constructor" in
  let res := setRightPanel quiet ph None true IdNull inRoomA in
  let res' := pushRightPanel quiet ph None true IdNull inRoomA_afterB in
  isViewingRoom inRoomA = true
  /\ threw res = false
  /\ byRoom (final res) !! roomA
     = Some {| history := [ {| phase := ph; state := Some emptyState |} ];
               isOpen := true |}
  /\ final res <> inRoomA
  /\ output res
     = [ SetValue "RightPanel.phasesGlobal" IdNull DEVICE None;
         SetValue "RightPanel.phases" (Id roomA) ROOM_DEVICE
           (byRoom (final res) !! roomA);
         EmitUpdate ]
  /\ threw res' = false
  /\ roomPhaseHistory (final res')
     = [card RoomSummary emptyState; {| phase := ph; state := None |}]
  /\ EmitUpdate ∈ output res'
  /\ setRightPanel quiet (PUnknown "Bogus") None true IdNull inRoomA
     = Ret tt inRoomA [LoggerWarn (UnknownPhase (PUnknown "Bogus"))].
Proof.
  cbn zeta. repeat split; try (vm_compute; reflexivity).
  - intros Heq.
    assert (H : byRoom (final (setRightPanel quiet (PUnknown "constructor") None
                                 true IdNull inRoomA)) !! roomA = None)
      by (rewrite Heq; vm_compute; reflexivity).
    vm_compute in H. discriminate.
  - vm_compute. set_solver.
Qed.

(** C7 fails: room A is viewed and shows the verification of Alice on top
    of its summary; request 7 is pending for Alice.  [setRightPanel] for
    [RoomMemberInfo] with a state [S] naming Alice resolves to
    [EncryptionPanel], the phase shown: the history keeps its two cards and
    the top card its phase, but the state of the current card is the
    request and the member, not [S]. *)
Lemma redirected_update_discards_the_given_state :
  let s := DemoMore.inRoomA_verifyingAlice in
  let S := DemoMore.aliceFromWidget in
  let res := setRightPanel verifying (P RoomMemberInfo) (Some S) true IdNull s in
  roomPhaseHistory s
    = [card RoomSummary emptyState; card EncryptionPanel aliceVerification]
  /\ (resolve verifying (P RoomMemberInfo) (Some S)).1 = phase (currentPanel s)
  /\ phaseMatchesMode (isViewingRoom s)
       (resolve verifying (P RoomMemberInfo) (Some S)).1 = true
  /\ threw res = false
  /\ length (roomPhaseHistory (final res)) = length (roomPhaseHistory s)
  /\ phase (currentPanel (final res)) = phase (currentPanel s)
  /\ state (currentPanel (final res)) = Some aliceVerification
  /\ state (currentPanel (final res)) <> Some S.
Proof.
  cbn zeta. repeat split; try (vm_compute; reflexivity).
  vm_compute. discriminate.
Qed.

(** ** The theorems at work on the demo stores *)

Lemma only_pop_empties_a_history_witness :
  let cs := [(quiet, CallSet (P RoomSummary) None true IdNull)] in
  histories_nonempty inRoomA
  /\ Forall (fun ec => isPop ec.2 = false) cs
  /\ byRoom (run cs inRoomA) !! key (target IdNull (run cs inRoomA))
     = Some summaryRecord
  /\ histories_nonempty (run cs inRoomA)
  /\ (forall (E' : Env_) c k r,
        byRoom (run cs inRoomA) !! k = None ->
        byRoom (final (call E' c (run cs inRoomA))) !! k = Some r ->
        length (history r) = 1)
  /\ exists s' out,
      popRightPanel quiet IdNull (run cs inRoomA) = Ret tt s' out
      /\ byRoom s' !! key (target IdNull (run cs inRoomA))
         = Some {| history := removelast (history summaryRecord);
                   isOpen := isOpen summaryRecord |}
      /\ (removelast (history summaryRecord) <> []
          <-> 2 <= length (history summaryRecord)).
Proof.
  cbn zeta.
  assert (H1 : histories_nonempty inRoomA).
  { intros k r Hk. assert (He : byRoom inRoomA = ∅) by (vm_compute; reflexivity).
    rewrite He, lookup_empty in Hk. discriminate. }
  assert (H2 : Forall (fun ec : Env_ * Call string nat string => isPop ec.2 = false)
                 [(quiet, CallSet (P RoomSummary) None true IdNull)])
    by (repeat constructor).
  assert (H3 : byRoom (run [(quiet, CallSet (P RoomSummary) None true IdNull)] inRoomA)
                 !! key (target IdNull
                      (run [(quiet, CallSet (P RoomSummary) None true IdNull)] inRoomA))
               = Some summaryRecord) by (vm_compute; reflexivity).
  split; [exact H1|]. split; [exact H2|]. split; [exact H3|].
  destruct (only_pop_empties_a_history _ quiet IdNull inRoomA H1 H2)
    as (Hne & Hnew & Hpop).
  split; [exact Hne|]. split; [exact Hnew|]. exact (Hpop summaryRecord H3).
Defined.

Lemma switching_rooms_coerces_by_direction_witness :
  let s := inGroupA_memberInfo in
  (ViewRoom = ViewRoom \/ ViewRoom = view_group)
  /\ key (Id roomB) <> key (viewedRoomId s)
  /\ isViewingRoom s = false
  /\ currentPanel s = card RoomMemberInfo aliceState
  /\ exists s' out,
      onDispatch quiet {| action := ViewRoom; room_id := Id roomB |} s
        = Ret tt s' out
      /\ viewedRoomId s' = Id roomB
      /\ isViewingRoom s' = true
      /\ byRoom s' !! roomA
         = Some {| history := [card RoomMemberList emptyState]; isOpen := true |}.
Proof.
  cbn zeta.
  assert (H1 : ViewRoom = ViewRoom \/ ViewRoom = view_group) by (left; reflexivity).
  assert (H2 : key (Id roomB) <> key (viewedRoomId inGroupA_memberInfo))
    by (vm_compute; discriminate).
  split; [exact H1|]. split; [exact H2|].
  split; [vm_compute; reflexivity|]. split; [vm_compute; reflexivity|].
  destruct (switching_rooms_coerces_by_direction quiet ViewRoom (Id roomB)
              inGroupA_memberInfo H1 H2)
    as (s' & out & Hrun & Hv & Hm & Hc & _).
  exists s', out. split; [exact Hrun|]. split; [exact Hv|]. split; [exact Hm|].
  exact (proj1 Hc).
Defined.

Lemma member_info_goes_to_pending_verification_witness :
  let s := inRoomA_memberInfo in
  member aliceState = Some alice
  /\ isViewingRoom s = true
  /\ key (target IdNull s) = key (viewedRoomId s)
  /\ pendingVerificationRequestForUser verifying (Some alice) = Some 7
  /\ is_Some (byRoom s !! key (viewedRoomId s))
  /\ isViewingRoom inGroupG = false
  /\ (exists s' out,
        setRightPanel verifying (P RoomMemberInfo) (Some aliceState) true IdNull s
          = Ret tt s' out
        /\ currentPanel s' = card EncryptionPanel aliceVerification)
  /\ (exists s' out,
        pushRightPanel verifying (P RoomMemberInfo) (Some aliceState) true IdNull s
          = Ret tt s' out
        /\ currentPanel s' = card EncryptionPanel aliceVerification)
  /\ (exists w,
        setRightPanel verifying (P RoomMemberInfo) (Some aliceState) true IdNull
          inGroupG = Ret tt inGroupG [LoggerWarn w])
  /\ (exists w,
        pushRightPanel verifying (P RoomMemberInfo) (Some aliceState) true IdNull
          inGroupG = Ret tt inGroupG [LoggerWarn w]).
Proof.
  cbn zeta.
  assert (H1 : member aliceState = Some alice) by reflexivity.
  assert (H2 : isViewingRoom inRoomA_memberInfo = true) by (vm_compute; reflexivity).
  assert (H3 : key (target IdNull inRoomA_memberInfo)
               = key (viewedRoomId inRoomA_memberInfo)) by reflexivity.
  assert (H4 : is_Some (byRoom inRoomA_memberInfo
                          !! key (viewedRoomId inRoomA_memberInfo)))
    by (exists memberInfoRecord; vm_compute; reflexivity).
  assert (H5 : isViewingRoom inGroupG = false) by (vm_compute; reflexivity).
  split; [exact H1|]. split; [exact H2|]. split; [exact H3|].
  split; [vm_compute; reflexivity|]. split; [exact H4|]. split; [exact H5|].
  destruct (member_info_goes_to_pending_verification verifying aliceState alice
              true IdNull inRoomA_memberInfo H1) as [Hroom _].
  destruct (Hroom H2 H3) as [Hset Hpush].
  destruct (member_info_goes_to_pending_verification verifying aliceState alice
              true IdNull inGroupG H1) as [_ Hgroup].
  destruct (Hgroup H5) as [Hset' Hpush'].
  split; [exact Hset|]. split; [exact (Hpush H4)|].
  split; [exact Hset' | exact Hpush'].
Defined.

Lemma invalid_request_is_rejected_witness :
  (includes GROUP_PHASES (resolve quiet (P GroupMemberList) None).1 = true
   /\ isViewingRoom inRoomA = true)
  /\ (exists w, setRightPanel quiet (P GroupMemberList) None true IdNull inRoomA
                = Ret tt inRoomA [LoggerWarn w])
  /\ (exists w, pushRightPanel quiet (P GroupMemberList) None true IdNull inRoomA
                = Ret tt inRoomA [LoggerWarn w]).
Proof.
  assert (H : includes GROUP_PHASES (resolve quiet (P GroupMemberList) None).1 = true
              /\ isViewingRoom inRoomA = true)
    by (split; vm_compute; reflexivity).
  split; [exact H|].
  apply (invalid_request_is_rejected quiet (P GroupMemberList) None true IdNull
           inRoomA).
  right. left. exact H.
Defined.

Lemma same_phase_with_state_updates_in_place_witness :
  let s := DemoMore.inRoomA_summaryThenMemberInfo in
  let r := DemoMore.summaryThenMemberInfoRecord in
  let top := card RoomMemberInfo aliceState in
  phaseMatchesMode (isViewingRoom s)
    (resolve quiet (P RoomMemberInfo) (Some bobState)).1 = true
  /\ byRoom s !! key (target IdNull s) = Some r
  /\ last (history r) = Some top
  /\ phase top = (resolve quiet (P RoomMemberInfo) (Some bobState)).1
  /\ length (history r) = 2
  /\ exists s' out,
      setRightPanel quiet (P RoomMemberInfo) (Some bobState) true IdNull s
        = Ret tt s' out
      /\ length (historyOf (target IdNull s) s') = 2
      /\ removelast (historyOf (target IdNull s) s') = [card RoomSummary emptyState]
      /\ currentPanel s' = card RoomMemberInfo bobState.
Proof.
  cbn zeta.
  assert (H1 : phaseMatchesMode (isViewingRoom DemoMore.inRoomA_summaryThenMemberInfo)
                 (resolve quiet (P RoomMemberInfo) (Some bobState)).1 = true)
    by (vm_compute; reflexivity).
  assert (H2 : byRoom DemoMore.inRoomA_summaryThenMemberInfo
                 !! key (target IdNull DemoMore.inRoomA_summaryThenMemberInfo)
               = Some DemoMore.summaryThenMemberInfoRecord)
    by (vm_compute; reflexivity).
  assert (H3 : last (history DemoMore.summaryThenMemberInfoRecord)
               = Some (card RoomMemberInfo aliceState)) by reflexivity.
  assert (H4 : phase (card RoomMemberInfo aliceState)
               = (resolve quiet (P RoomMemberInfo) (Some bobState)).1)
    by reflexivity.
  split; [exact H1|]. split; [exact H2|]. split; [exact H3|]. split; [exact H4|].
  split; [reflexivity|].
  destruct (same_phase_with_state_updates_in_place quiet (P RoomMemberInfo)
              bobState true IdNull DemoMore.inRoomA_summaryThenMemberInfo
              DemoMore.summaryThenMemberInfoRecord
              (card RoomMemberInfo aliceState) H1 H2 H3 H4)
    as (s' & out & Hset & Hlen & Hlow & _ & Hcur & _).
  exists s', out. split; [exact Hset|]. split; [exact Hlen|].
  split; [exact Hlow|]. exact (Hcur eq_refl).
Defined.

Lemma push_then_pop_restores_current_witness :
  let s := inRoomA_afterB in
  byRoom s !! key (target IdNull s) = Some summaryRecord
  /\ phaseMatchesMode (isViewingRoom s) (P FilePanel) = true
  /\ exists s1 out1 s2 out2,
      pushRightPanel quiet (P FilePanel) None true IdNull s = Ret tt s1 out1
      /\ popRightPanel quiet IdNull s1 = Ret tt s2 out2
      /\ historyOf (target IdNull s) s2 = history summaryRecord
      /\ currentPanel s2 = currentPanel s.
Proof.
  cbn zeta.
  assert (H1 : byRoom inRoomA_afterB !! key (target IdNull inRoomA_afterB)
               = Some summaryRecord) by (vm_compute; reflexivity).
  assert (H2 : phaseMatchesMode (isViewingRoom inRoomA_afterB) (P FilePanel) = true)
    by (vm_compute; reflexivity).
  split; [exact H1|]. split; [exact H2|].
  destruct (push_then_pop_restores_current quiet quiet (P FilePanel) None true
              IdNull inRoomA_afterB summaryRecord H1 H2)
    as (s1 & out1 & s2 & out2 & Hpush & Hpop & Hhist & Hcur & _).
  exists s1, out1, s2, out2. repeat split; assumption.
Defined.

Lemma togglePanel_flips_and_twice_restores_witness :
  let s := inRoomA_afterB in
  byRoom s !! key (target IdNull s) = Some summaryRecord
  /\ exists s1 out1 out2,
      togglePanel quiet IdNull s = Ret tt s1 out1
      /\ byRoom s1 !! key (target IdNull s)
         = Some {| history := history summaryRecord; isOpen := false |}
      /\ togglePanel quiet IdNull s1 = Ret tt s out2.
Proof.
  cbn zeta.
  assert (H1 : byRoom inRoomA_afterB !! key (target IdNull inRoomA_afterB)
               = Some summaryRecord) by (vm_compute; reflexivity).
  split; [exact H1|].
  destruct (togglePanel_flips_and_twice_restores quiet quiet IdNull
              inRoomA_afterB summaryRecord H1)
    as (s1 & out1 & out2 & Ht1 & Hopen & _ & Ht2).
  exists s1, out1, out2. repeat split; assumption.
Defined.

Lemma same_phase_without_state_or_close_is_noop_witness :
  let s := inRoomA_afterB in
  (resolve quiet (P RoomSummary) None).1 = phase (currentPanel s)
  /\ (resolve quiet (P RoomSummary) None).1
     = phase (currentPanelForRoom (target IdNull s) s)
  /\ exists out,
      setRightPanel quiet (P RoomSummary) None false IdNull s = Ret tt s out
      /\ (phaseMatchesMode (isViewingRoom s) (P RoomSummary) = true -> out = [])
      /\ forallb isWarning out = true.
Proof.
  cbn zeta.
  assert (H1 : (resolve quiet (P RoomSummary) None).1
               = phase (currentPanel inRoomA_afterB)) by (vm_compute; reflexivity).
  assert (H2 : (resolve quiet (P RoomSummary) None).1
               = phase (currentPanelForRoom (target IdNull inRoomA_afterB)
                          inRoomA_afterB)) by (vm_compute; reflexivity).
  split; [exact H1|]. split; [exact H2|].
  exact (same_phase_without_state_or_close_is_noop quiet (P RoomSummary) IdNull
           inRoomA_afterB H1 H2).
Defined.

(** * More about the store *)

Section MoreProperties.

Context {Member Request Value Room Stored : Type}.

Implicit Types (E : Env Member Request Value Room Stored).
Implicit Types (s : RightPanelStore Member Request Value).
Implicit Types (r : IRightPanelForRoom Member Request Value).
Implicit Types (st : option (IPanelState Member Request Value)).
Implicit Types (h : list (IPhaseAndState Member Request Value)).
Implicit Types (ph p : PhaseValue) (rid roomId : JsId) (ac : bool).

(** ** Calls that die *)

(** X1: without a record for the room it works on, [popRightPanel] dies
    with a [TypeError] before anything is changed, written or notified, and
    so does [togglePanel] when the name of that room is not one [byRoom]
    inherits from [Object.prototype]. *)
Theorem pop_and_toggle_need_a_record E rid s :
  byRoom s !! key (target rid s) = None ->
  popRightPanel E rid s = Throw s []
  /\ (inheritedName (key (target rid s)) = false ->
      togglePanel E rid s = Throw s []).
Proof.
  intros Hr. split.
  - unfold popRightPanel, target in *. unfold bind, get. simpl. by rewrite Hr.
  - intros _. unfold togglePanel, target in *. unfold bind, get. simpl.
    by rewrite Hr.
Qed.

Lemma target_again rid s : target (target rid s) s = target rid s.
Proof.
  unfold target. destruct rid; simpl; try done; by destruct (viewedRoomId s).
Qed.

Lemma togglePanel_target E rid s :
  togglePanel E (target rid s) s = togglePanel E rid s.
Proof.
  unfold togglePanel. unfold bind at 1 3, get. cbn [final].
  fold (target (target rid s) s). fold (target rid s).
  by rewrite target_again.
Qed.

Lemma phaseMatchesMode_not_null viewing p :
  phaseMatchesMode viewing p = true -> p <> PNull.
Proof. by intros H ->. Qed.

(** A valid phase that the viewed room shows means the viewed room has a
    record whose history ends in a card of that phase. *)
Lemma shown_phase_has_record s p :
  recognized p = true -> p = phase (currentPanel s) ->
  exists r l top,
    byRoom s !! key (viewedRoomId s) = Some r
    /\ history r = l ++ [top] /\ phase top = p.
Proof.
  intros Hrec Hp. unfold currentPanel, roomPhaseHistory, historyOf in Hp.
  destruct (byRoom s !! key (viewedRoomId s)) as [r|] eqn:Hr.
  2:{ simpl in Hp. subst p. discriminate. }
  destruct (last (history r)) as [top|] eqn:Htop.
  2:{ simpl in Hp. subst p. discriminate. }
  apply last_Some in Htop as [l Hl]. by exists r, l, top.
Qed.

(** X2: a request aimed at a room that has no card to show, for the phase
    the viewed room shows, dies with a [TypeError] and changes nothing:
    with a state, in the update branch (the phase is compared with the
    viewed room's card when the target has none); without a state and with
    [allowClose], in the toggle, when the target has no record at all and
    its name is not one [byRoom] inherits from [Object.prototype]. *)
Theorem same_phase_for_a_room_without_cards_throws E ph st ac rid s :
  let tp := (resolve E ph st).1 in
  let ps := (resolve E ph st).2 in
  phaseMatchesMode (isViewingRoom s) tp = true ->
  tp = phase (currentPanel s) ->
  (is_Some ps -> historyOf (target rid s) s = [] ->
   setRightPanel E ph st ac rid s = Throw s [])
  /\ (ps = None -> ac = true -> byRoom s !! key (target rid s) = None ->
      inheritedName (key (target rid s)) = false ->
      setRightPanel E ph st ac rid s = Throw s []).
Proof.
  intros tp ps Hv Hcur.
  pose proof (setRightPanel_accepted E ph st ac rid s Hv) as Hset.
  fold tp ps in Hset. unfold phase_eqb in Hset.
  rewrite (bool_decide_eq_true_2 _ Hcur) in Hset.
  split.
  - intros Hps Hempty.
    rewrite (bool_decide_eq_true_2 _ Hps), andb_false_r in Hset.
    assert (Hfor : currentPanelForRoom (target rid s) s = currentPanel s).
    { unfold currentPanelForRoom. by rewrite Hempty. }
    rewrite Hfor, (bool_decide_eq_true_2 _ Hcur) in Hset. cbn [andb] in Hset.
    rewrite Hset. unfold historyOf in Hempty.
    destruct (byRoom s !! key (target rid s)) as [r|]; [|done].
    by rewrite Hempty.
  - intros Hps -> Hr _. rewrite Hps in Hset.
    rewrite (bool_decide_eq_false_2 (is_Some None)) in Hset
      by (by intros [? ?]).
    cbn [andb negb] in Hset. rewrite Hset, togglePanel_target.
    unfold togglePanel, target in *. unfold bind, get. simpl. by rewrite Hr.
Qed.

(** ** The toggle through [setRightPanel] *)

(** X3: [setRightPanel] with no state and [allowClose], for the valid phase
    the viewed room shows, is [togglePanel] on the room asked for; aimed at
    the viewed room it returns, keeps the history, negates the open flag
    and persists and notifies once. *)
Theorem same_phase_without_state_toggles E ph rid s :
  phaseMatchesMode (isViewingRoom s) ph = true ->
  ph = phase (currentPanel s) ->
  setRightPanel E ph None true rid s = togglePanel E rid s
  /\ (key (target rid s) = key (viewedRoomId s) ->
      exists s',
        setRightPanel E ph None true rid s = Ret tt s' (persisted E s')
        /\ roomPhaseHistory s' = roomPhaseHistory s
        /\ isOpenForRoom s' = negb (isOpenForRoom s)
        /\ updates (persisted E s') = 1).
Proof.
  intros Hv Hcur.
  assert (Hv' : phaseMatchesMode (isViewingRoom s) (resolve E ph None).1 = true)
    by (by rewrite resolve_no_state).
  pose proof (setRightPanel_accepted E ph None true rid s Hv') as Hset.
  rewrite resolve_no_state in Hset. cbn [fst snd] in Hset.
  unfold phase_eqb in Hset. rewrite (bool_decide_eq_true_2 _ Hcur) in Hset.
  rewrite (bool_decide_eq_false_2 (is_Some None)) in Hset by (by intros [? ?]).
  cbn [andb negb] in Hset. rewrite togglePanel_target in Hset.
  split; [exact Hset|]. intros Hk.
  destruct (shown_phase_has_record s ph) as (r & l & top & Hr & Hl & _);
    [unfold phaseMatchesMode in Hv; by apply andb_prop in Hv as [? _]
    | exact Hcur |].
  rewrite <- Hk in Hr.
  pose proof (togglePanel_eq E rid s r Hr) as Ht. cbn zeta in Ht.
  rewrite Hset. eexists. split; [exact Ht|].
  rewrite Hk in Hr |- *.
  split; [|split].
  - unfold roomPhaseHistory, historyOf, set_byRoom. cbn [byRoom viewedRoomId].
    by rewrite lookup_insert_eq, Hr.
  - unfold isOpenForRoom, set_byRoom. cbn [byRoom viewedRoomId].
    by rewrite lookup_insert_eq, Hr.
  - unfold updates, persisted. cbn [viewedRoomId set_byRoom].
    by destruct (truthy_id (viewedRoomId s)).
Qed.

(** ** The reset, aimed at the viewed room *)

(** X4: [setRightPanel] for a valid phase the viewed room does not show,
    aimed at the viewed room, returns with that room's history replaced by
    the single resolved card ([{}] for a missing state) whatever its depth
    was, the panel open, every other record as before, and one
    notification. *)
Theorem new_phase_resets_viewed_room E ph st ac rid s :
  let tp := (resolve E ph st).1 in
  let ps := (resolve E ph st).2 in
  phaseMatchesMode (isViewingRoom s) tp = true ->
  tp <> phase (currentPanel s) ->
  key (target rid s) = key (viewedRoomId s) ->
  exists s',
    setRightPanel E ph st ac rid s = Ret tt s' (persisted E s')
    /\ roomPhaseHistory s'
       = [ {| phase := tp; state := Some (default emptyState ps) |} ]
    /\ isOpenForRoom s' = true
    /\ (forall k, k <> key (viewedRoomId s) -> byRoom s' !! k = byRoom s !! k)
    /\ updates (persisted E s') = 1.
Proof.
  intros tp ps Hv Hne Hk.
  assert (Hupd : tp <> phase (currentPanelForRoom (target rid s) s) \/ ps = None).
  { left. by rewrite (currentPanelForRoom_viewed _ _ Hk). }
  pose proof (setRightPanel_hard_reset E ph st ac rid s Hv Hne Hupd) as Hset.
  cbn zeta in Hset. fold tp ps in Hset.
  eexists. split; [exact Hset|].
  split; [|split; [|split]].
  - unfold roomPhaseHistory, historyOf, set_byRoom. cbn [byRoom viewedRoomId].
    by rewrite lookup_insert_eq.
  - unfold isOpenForRoom, set_byRoom. cbn [byRoom viewedRoomId].
    by rewrite lookup_insert_eq.
  - intros k Hkk. cbn [byRoom set_byRoom]. by rewrite lookup_insert_ne.
  - unfold updates, persisted. cbn [viewedRoomId set_byRoom].
    by destruct (truthy_id (viewedRoomId s)).
Qed.

(** ** Going back and forth in a history *)

Lemma roomPhaseHistory_insert_viewed s r :
  roomPhaseHistory (set_byRoom (<[key (viewedRoomId s) := r]> (byRoom s)) s)
  = history r.
Proof.
  unfold roomPhaseHistory, historyOf, set_byRoom. cbn [byRoom viewedRoomId].
  by rewrite lookup_insert_eq.
Qed.

Lemma isOpenForRoom_insert_viewed s r :
  isOpenForRoom (set_byRoom (<[key (viewedRoomId s) := r]> (byRoom s)) s)
  = isOpen r.
Proof.
  unfold isOpenForRoom, set_byRoom. cbn [byRoom viewedRoomId].
  by rewrite lookup_insert_eq.
Qed.

(** The card [previousPanel] answers is the one on top once the last card
    is taken off. *)
Lemma previous_is_top_without_last h :
  (if 2 <=? length h
   then default (emptyPanel (Member := Member) (Request := Request)
                            (Value := Value))
          (h !! (length h - 2))
   else emptyPanel)
  = default emptyPanel (last (removelast h)).
Proof.
  destruct (last h) as [b|] eqn:Hb.
  - apply last_Some in Hb as [h1 ->]. rewrite removelast_last.
    destruct (last h1) as [a|] eqn:Ha.
    + apply last_Some in Ha as [h2 ->].
      rewrite !length_app. cbn [length].
      replace (2 <=? length h2 + 1 + 1) with true
        by (symmetry; apply Nat.leb_le; lia).
      replace (length h2 + 1 + 1 - 2) with (length h2 + 0) by lia.
      rewrite <- app_assoc, lookup_app_r by lia.
      by replace (length h2 + 0 - length h2) with 0 by lia.
    + apply last_None in Ha as ->. reflexivity.
  - apply last_None in Hb as ->. reflexivity.
Qed.

(** X5: on the viewed room, once it has a record, [popRightPanel] returns
    and the card then shown is the one [previousPanel] announced (the empty
    card when the history had fewer than two cards); the open flag stays. *)
Theorem pop_shows_the_previous_panel E rid s r :
  key (target rid s) = key (viewedRoomId s) ->
  byRoom s !! key (viewedRoomId s) = Some r ->
  exists s',
    popRightPanel E rid s = Ret tt s' (persisted E s')
    /\ currentPanel s' = previousPanel s
    /\ roomPhaseHistory s' = removelast (roomPhaseHistory s)
    /\ isOpenForRoom s' = isOpenForRoom s.
Proof.
  intros Hk Hr.
  assert (Hr' : byRoom s !! key (target rid s) = Some r) by (by rewrite Hk).
  pose proof (popRightPanel_eq E rid s r Hr') as Hpop. cbn zeta in Hpop.
  rewrite Hk in Hpop. eexists. split; [exact Hpop|].
  assert (Hh : roomPhaseHistory s = history r).
  { unfold roomPhaseHistory, historyOf. by rewrite Hr. }
  split; [|split].
  - rewrite currentPanel_insert_viewed. cbn [history].
    unfold previousPanel. rewrite Hh. cbn zeta.
    symmetry. apply previous_is_top_without_last.
  - by rewrite roomPhaseHistory_insert_viewed, Hh.
  - rewrite isOpenForRoom_insert_viewed. unfold isOpenForRoom. by rewrite Hr.
Qed.

(** X6: on the viewed room, once it has a record, a valid
    [pushRightPanel] returns with the resolved card added at the end of the
    history: it is the current card, the card shown before is the previous
    one, and the panel is open if [allowClose] is false and as it was
    otherwise. *)
Theorem push_on_viewed_room_adds_a_card E ph st ac rid s r :
  phaseMatchesMode (isViewingRoom s) ph = true ->
  key (target rid s) = key (viewedRoomId s) ->
  byRoom s !! key (viewedRoomId s) = Some r ->
  exists s',
    pushRightPanel E ph st ac rid s = Ret tt s' (persisted E s')
    /\ roomPhaseHistory s' = roomPhaseHistory s ++ [pushed E (ph, st)]
    /\ currentPanel s' = pushed E (ph, st)
    /\ previousPanel s' = currentPanel s
    /\ isOpenForRoom s' = (if ac then isOpenForRoom s else true).
Proof.
  intros Hv Hk Hr.
  assert (Hv' : phaseMatchesMode (isViewingRoom s) (resolve E ph st).1 = true)
    by (by rewrite resolve_keeps_validity).
  assert (Hr' : byRoom s !! key (target rid s) = Some r) by (by rewrite Hk).
  pose proof (pushRightPanel_existing E ph st ac rid s r Hv' Hr') as Hpush.
  cbn zeta in Hpush. rewrite Hk in Hpush. eexists. split; [exact Hpush|].
  assert (Hh : roomPhaseHistory s = history r).
  { unfold roomPhaseHistory, historyOf. by rewrite Hr. }
  split; [|split; [|split]].
  - by rewrite roomPhaseHistory_insert_viewed, Hh.
  - rewrite currentPanel_insert_viewed. cbn [history]. by rewrite last_snoc.
  - unfold previousPanel. rewrite roomPhaseHistory_insert_viewed. cbn [history].
    cbn zeta. rewrite previous_is_top_without_last, removelast_last.
    unfold currentPanel. by rewrite Hh.
  - rewrite isOpenForRoom_insert_viewed. unfold isOpenForRoom. by rewrite Hr.
Qed.

Lemma historyOf_insert s rid r :
  historyOf rid (set_byRoom (<[key rid := r]> (byRoom s)) s) = history r.
Proof. unfold historyOf. simpl. by rewrite lookup_insert_eq. Qed.

(** X7: on a room that has a record, a sequence of valid [pushRightPanel]
    calls adds the resolved cards in the order of the calls, one per call,
    and as many [popRightPanel] calls afterwards give the history back. *)
Theorem pushes_then_pops_compose E rid ac
    (reqs : list (PhaseValue * option (IPanelState Member Request Value)))
    s r :
  byRoom s !! key (target rid s) = Some r ->
  Forall (fun req => phaseMatchesMode (isViewingRoom s) req.1 = true) reqs ->
  let pushes := map (fun req => (E, CallPush req.1 req.2 ac rid)) reqs in
  let pops := replicate (length reqs) (E, CallPop rid) in
  historyOf (target rid s) (run pushes s) = history r ++ map (pushed E) reqs
  /\ historyOf (target rid s) (run (pushes ++ pops) s) = history r.
Proof.
  intros Hr Hall pushes pops. subst pushes pops.
  (* what a run of pushes keeps and what it adds *)
  assert (Hpush : forall reqs s r,
    byRoom s !! key (target rid s) = Some r ->
    Forall (fun req => phaseMatchesMode (isViewingRoom s) req.1 = true) reqs ->
    let s' := run (map (fun req => (E, CallPush req.1 req.2 ac rid)) reqs) s in
    viewedRoomId s' = viewedRoomId s
    /\ exists r', byRoom s' !! key (target rid s) = Some r'
         /\ history r' = history r ++ map (pushed E) reqs).
  { clear. intros reqs. induction reqs as [|[ph st] reqs IH]; intros s r Hr Hall.
    - cbn. split; [done|]. exists r. by rewrite app_nil_r.
    - apply Forall_cons in Hall as [Hv Hall]. cbn [fst] in Hv.
      assert (Hv' : phaseMatchesMode (isViewingRoom s) (resolve E ph st).1 = true)
        by (by rewrite resolve_keeps_validity).
      pose proof (pushRightPanel_existing E ph st ac rid s r Hv' Hr) as Hp.
      cbn zeta in Hp. cbn [map run fold_left fst snd call].
      rewrite Hp. cbn [final].
      match goal with |- context [fold_left _ _ ?x] => set (s1 := x) end.
      assert (Ht : target rid s1 = target rid s) by reflexivity.
      specialize (IH s1 _ (eq_trans (f_equal (fun t => byRoom s1 !! key t) Ht)
                             (lookup_insert_eq _ _ _)) Hall).
      cbn zeta in IH. unfold run in IH. rewrite Ht in IH.
      destruct IH as [Hvw (r' & Hr' & Hh')]. split; [exact Hvw|].
      exists r'. split; [exact Hr'|]. rewrite Hh'. cbn [history map].
      by rewrite <- app_assoc. }
  assert (Hpop : forall n s l1 l2 o,
    length l2 = n ->
    byRoom s !! key (target rid s) = Some {| history := l1 ++ l2; isOpen := o |} ->
    historyOf (target rid s) (run (replicate n (E, CallPop rid)) s) = l1).
  { clear. intros n. induction n as [|n IH]; intros s l1 l2 o Hlen Hr.
    - destruct l2; [|done]. cbn. unfold historyOf. rewrite Hr. cbn.
      by rewrite app_nil_r.
    - destruct (last l2) as [x|] eqn:Hx.
      2:{ apply last_None in Hx as ->. done. }
      apply last_Some in Hx as [l2' ->].
      rewrite length_app in Hlen. cbn in Hlen.
      pose proof (popRightPanel_eq E rid s _ Hr) as Hp. cbn zeta in Hp.
      cbn [replicate run fold_left fst snd call]. rewrite Hp. cbn [final history isOpen].
      rewrite app_assoc, removelast_last.
      match goal with |- context [fold_left _ _ ?x] => set (s1 := x) end.
      assert (Ht : target rid s1 = target rid s) by reflexivity.
      rewrite <- Ht. apply (IH s1 l1 l2' o); [lia|].
      rewrite Ht. subst s1. cbn [byRoom set_byRoom]. apply lookup_insert_eq. }
  destruct (Hpush reqs s r Hr Hall) as [Hvw (r' & Hr' & Hh')].
  split.
  - unfold historyOf. by rewrite Hr'.
  - unfold run. rewrite fold_left_app. fold (run (map (fun req => (E, CallPush req.1 req.2 ac rid)) reqs) s).
    set (s1 := run _ s) in *.
    assert (Ht : target rid s1 = target rid s) by (unfold target; by rewrite Hvw).
    rewrite <- Ht.
    apply (Hpop (length reqs) s1 (history r) (map (pushed E) reqs) (isOpen r'));
      [by rewrite length_map|].
    rewrite Ht, Hr', <- Hh'. by destruct r'.
Qed.

(** ** What a setter can do at all *)

Lemma togglePanel_ending E c rid s :
  key (target rid s) = key (target (roomOf c) s) ->
  Ending E c s (togglePanel E rid s).
Proof.
  intros Hk. destruct (byRoom s !! key (target rid s)) as [r|] eqn:Hr.
  - rewrite (togglePanel_eq E rid s r Hr). cbn zeta.
    apply EndsRewritten. by left.
  - rewrite togglePanel_absent by done. constructor.
Qed.

Lemma call_ending E c s : Ending E c s (call E c s).
Proof.
  destruct c as [ph st ac rid | ph st ac rid | rid | rid]; cbn [call].
  - destruct (phaseMatchesMode (isViewingRoom s) (resolve E ph st).1) eqn:Hv.
    2:{ destruct (setRightPanel_rejected E ph st ac rid s Hv) as [w ->].
        constructor. }
    rewrite setRightPanel_accepted by exact Hv.
    destruct (_ && _ && _).
    { apply togglePanel_ending. cbn [roomOf]. by rewrite target_again. }
    destruct (_ && _).
    { destruct (byRoom s !! key (target rid s)) as [r|]; [|constructor].
      destruct (last (history r)); [|constructor].
      cbn zeta. apply EndsRewritten. by left. }
    destruct (negb _); [|constructor].
    rewrite setRightPanelCache_eq. cbn zeta. apply EndsRewritten. by right.
  - destruct (phaseMatchesMode (isViewingRoom s) (resolve E ph st).1) eqn:Hv.
    2:{ destruct (pushRightPanel_rejected E ph st ac rid s Hv) as [w ->].
        constructor. }
    destruct (byRoom s !! key (target rid s)) as [r|] eqn:Hr.
    + rewrite (pushRightPanel_existing E ph st ac rid s r Hv Hr). cbn zeta.
      apply EndsRewritten. by left.
    + rewrite pushRightPanel_absent by done. constructor.
  - destruct (byRoom s !! key (target rid s)) as [r|] eqn:Hr.
    + rewrite (popRightPanel_eq E rid s r Hr). cbn zeta.
      apply EndsRewritten. by left.
    + rewrite popRightPanel_absent by done. constructor.
  - by apply togglePanel_ending.
Qed.

Lemma updates_persisted E s : updates (persisted E s) = 1.
Proof. unfold updates, persisted. by destruct (truthy_id (viewedRoomId s)). Qed.

(** X8: whatever setter is called on whatever store, either it returns
    having written to the settings the records of the store it leaves and
    notified exactly once, or it leaves the store as it was and notifies
    nobody (its output is empty or one warning).  No change of the store
    goes without its notification. *)
Theorem setters_notify_what_they_change E c s :
  let res := call E c s in
  (threw res = false
   /\ output res = persisted E (final res)
   /\ updates (output res) = 1)
  \/ (final res = s
      /\ (output res = [] \/ exists w, output res = [LoggerWarn w])).
Proof.
  cbn zeta. destruct (call_ending E c s); cbn [threw output final].
  - left. by rewrite updates_persisted.
  - left. by rewrite updates_persisted.
  - right. by split; [|left].
  - right. split; [done|]. right. by exists w.
  - right. by split; [|left].
Qed.

(** X9: a setter never changes which room is viewed, the mode, the
    subscription token or the global record, and the only records it can
    change are the one of the room it was asked for and, for
    [setRightPanel], the one of the viewed room. *)
Theorem setters_stay_in_their_rooms E c s :
  let s' := final (call E c s) in
  viewedRoomId s' = viewedRoomId s
  /\ isViewingRoom s' = isViewingRoom s
  /\ roomStoreToken s' = roomStoreToken s
  /\ global s' = global s
  /\ forall k,
      k <> key (target (roomOf c) s) ->
      (isSet c = true -> k <> key (viewedRoomId s)) ->
      byRoom s' !! k = byRoom s !! k.
Proof.
  cbn zeta. destruct (call_ending E c s) as [k0 r0 Hk0| | | |];
    cbn [final]; try done.
  repeat split; try done. intros k Hk Hset. cbn [byRoom set_byRoom].
  rewrite lookup_insert_ne; [done|].
  destruct Hk0 as [-> | [Hc ->]]; [congruence|].
  intros Heq. by apply (Hset Hc).
Qed.

(** X10: [pushRightPanel], [popRightPanel] and [togglePanel] aimed at a
    room other than the viewed one write to the settings, when they write,
    exactly what the store held before the call: the room-level write is
    the one of the viewed room, whose record they do not touch, so the
    change they make to the other room is not persisted. *)
Theorem change_to_other_room_is_not_persisted E c s :
  isSet c = false ->
  key (target (roomOf c) s) <> key (viewedRoomId s) ->
  let res := call E c s in
  output res = persisted E s
  \/ output res = []
  \/ exists w, output res = [LoggerWarn w].
Proof.
  intros Hc Hk. cbn zeta.
  destruct (call_ending E c s) as [k0 r0 Hk0| | | |]; cbn [output]; eauto.
  left. destruct Hk0 as [-> | [Hset _]]; [|congruence].
  unfold persisted. cbn [global viewedRoomId byRoom set_byRoom].
  by rewrite lookup_insert_ne.
Qed.

(** ** The dispatcher callback *)

Lemma loadCacheFromSettings_returns E s :
  loadCacheFromSettings E s = Ret tt (final (loadCacheFromSettings E s)) [].
Proof.
  unfold loadCacheFromSettings, bind, get, modify, ret.
  by destruct (getRoom E (viewedRoomId s)).
Qed.

(** [onDispatch] for another room, spelled out: the coercion and its
    notification, the switch, then the load and its notification when the
    store holds its token. *)
Lemma onDispatch_switch_eq E a B s :
  a = ViewRoom \/ a = view_group ->
  B <> viewedRoomId s ->
  let out1 :=
    match coercion (isViewingRoom s) a (phase (currentPanel s)) with
    | Some _ => persisted E (coerced a s)
    | None => []
    end in
  let s2 := set_viewed B (bool_decide (a = ViewRoom)) (coerced a s) in
  onDispatch E {| action := a; room_id := B |} s
  = if roomStoreToken s
    then Ret tt (final (loadCacheFromSettings E s2))
           (out1 ++ persisted E (final (loadCacheFromSettings E s2)))
    else Ret tt s2 out1.
Proof.
  intros Ha HB. cbn zeta.
  assert (Htok : roomStoreToken (coerced a s) = roomStoreToken s).
  { unfold coerced. by destruct (coercion _ _ _). }
  unfold onDispatch. cbn [action room_id].
  assert (Hhead : forall k : M Member Request Value Stored unit,
    (match a with OtherAction _ => ret tt | _ =>
       s0 <- get ;;
       if bool_decide (B = viewedRoomId s0) then ret tt
       else
         (if negb (bool_decide
                     ((if isViewingRoom s0 then ViewRoom else view_group) = a))
          then
            if bool_decide (a = ViewRoom)
               && includes MEMBER_INFO_PHASES (phase (currentPanel s0))
            then setRightPanelCache E (P RoomMemberList) (Some emptyState)
            else if bool_decide (a = view_group)
                    && phase_eqb (phase (currentPanel s0)) (P GroupMemberInfo)
            then setRightPanelCache E (P GroupMemberList) (Some emptyState)
            else ret tt
          else ret tt) ;;; k
     end) s
    = match k (coerced a s) with
      | Ret b t o =>
          Ret b t (match coercion (isViewingRoom s) a (phase (currentPanel s)) with
                   | Some _ => persisted E (coerced a s)
                   | None => []
                   end ++ o)
      | Throw t o =>
          Throw t (match coercion (isViewingRoom s) a (phase (currentPanel s)) with
                   | Some _ => persisted E (coerced a s)
                   | None => []
                   end ++ o)
      end).
  { intros k. unfold coerced, coercion.
    destruct Ha as [-> | ->];
      (rewrite (bind_pure _ _ s s) by reflexivity);
      (rewrite bool_decide_eq_false_2 by exact HB);
      unfold bind; destruct (isViewingRoom s); simpl;
      try (destruct (k s); reflexivity).
    - destruct (includes MEMBER_INFO_PHASES (phase (currentPanel s))); simpl.
      + rewrite setRightPanelCache_eq. reflexivity.
      + destruct (k s); reflexivity.
    - destruct (phase_eqb (phase (currentPanel s)) (P GroupMemberInfo)); simpl.
      + rewrite setRightPanelCache_eq. reflexivity.
      + destruct (k s); reflexivity. }
  rewrite Hhead. clear Hhead.
  unfold bind at 1. unfold modify at 1.
  rewrite (bind_pure _ _ _ _ (eq_refl : get _ = Ret _ _ [])).
  cbn [roomStoreToken set_viewed app]. rewrite Htok.
  destruct (roomStoreToken s).
  - unfold bind. rewrite loadCacheFromSettings_returns, emitAndUpdateSettings_eq.
    cbn [app]. reflexivity.
  - unfold ret. by rewrite app_nil_r.
Qed.

Lemma dispatch_for_viewed_room_is_ignored_aux E payload s :
  room_id payload = viewedRoomId s
  \/ (exists name, action payload = OtherAction name) ->
  onDispatch E payload s = Ret tt s [].
Proof.
  intros H. unfold onDispatch.
  destruct H as [Hroom | [name ->]]; [|reflexivity].
  destruct (action payload); try reflexivity;
    rewrite (bind_pure _ _ s s) by reflexivity;
    by rewrite (bool_decide_eq_true_2 _ Hroom).
Qed.

(** X11: the dispatcher callback ignores every action other than
    [ViewRoom] and [view_group], and ignores these two when they name the
    room already viewed: the store stays as it is and nothing is sent. *)
Theorem dispatch_for_viewed_room_is_ignored E payload s :
  room_id payload = viewedRoomId s
  \/ (exists name, action payload = OtherAction name) ->
  onDispatch E payload s = Ret tt s [].
Proof.
  intros H. unfold onDispatch.
  destruct H as [Hroom | [name ->]]; [|reflexivity].
  destruct (action payload); try reflexivity;
    rewrite (bind_pure _ _ s s) by reflexivity;
    by rewrite (bool_decide_eq_true_2 _ Hroom).
Qed.

Lemma coerced_frame a s :
  viewedRoomId (coerced a s) = viewedRoomId s
  /\ roomStoreToken (coerced a s) = roomStoreToken s
  /\ global (coerced a s) = global s
  /\ forall k, k <> key (viewedRoomId s) ->
       byRoom (coerced a s) !! k = byRoom s !! k.
Proof.
  unfold coerced. destruct (coercion _ _ _); [|done].
  repeat split; try done. intros k Hk. simpl. by rewrite lookup_insert_ne.
Qed.

Lemma loadCacheFromSettings_frame E s :
  let s' := final (loadCacheFromSettings E s) in
  viewedRoomId s' = viewedRoomId s
  /\ isViewingRoom s' = isViewingRoom s
  /\ roomStoreToken s' = roomStoreToken s
  /\ (forall k r, byRoom s !! k = Some r -> byRoom s' !! k = Some r)
  /\ (forall g, global s = Some g -> global s' = Some g)
  /\ (forall k, k <> key (viewedRoomId s) -> byRoom s' !! k = byRoom s !! k)
  /\ (getRoom E (viewedRoomId s) = None -> s' = s).
Proof.
  cbn zeta. unfold loadCacheFromSettings, bind, get, modify, ret.
  destruct (getRoom E (viewedRoomId s)) as [room|]; cbn [final]; [|done].
  repeat split; try done.
  - intros k r Hr. cbn [byRoom set_byRoom set_global].
    destruct (byRoom s !! key (viewedRoomId s)) eqn:Hv; [done|].
    destruct (convertToStateRoom E _ room); [|done].
    rewrite lookup_insert_ne; [done|]. intros <-. congruence.
  - intros g Hg. cbn [global set_byRoom set_global]. by rewrite Hg.
  - intros k Hk. cbn [byRoom set_byRoom set_global].
    destruct (byRoom s !! key (viewedRoomId s)); [done|].
    destruct (convertToStateRoom E _ room); [|done].
    by rewrite lookup_insert_ne.
Qed.

Lemma dispatch_switch_frame E a B s :
  a = ViewRoom \/ a = view_group ->
  B <> viewedRoomId s ->
  exists s' out,
    onDispatch E {| action := a; room_id := B |} s = Ret tt s' out
    /\ roomStoreToken s' = roomStoreToken s
    /\ (forall k, k <> key (viewedRoomId s) -> k <> key B ->
        byRoom s' !! k = byRoom s !! k)
    /\ updates out <= 2
    /\ (roomStoreToken s = false ->
        global s' = global s
        /\ updates out
           = match coercion (isViewingRoom s) a (phase (currentPanel s)) with
             | Some _ => 1
             | None => 0
             end).
Proof.
  intros Ha HB. rewrite (onDispatch_switch_eq E a B s Ha HB). cbn zeta.
  destruct (coerced_frame a s) as (Hcv & Hct & Hcg & Hck).
  set (s2 := set_viewed B (bool_decide (a = ViewRoom)) (coerced a s)).
  destruct (loadCacheFromSettings_frame E s2)
    as (Hlv & _ & Hlt & _ & _ & Hlk & _).
  set (out1 := match coercion (isViewingRoom s) a (phase (currentPanel s)) with
               | Some _ => persisted E (coerced a s)
               | None => []
               end).
  assert (Hout1 : updates out1
                  = match coercion (isViewingRoom s) a (phase (currentPanel s)) with
                    | Some _ => 1
                    | None => 0
                    end).
  { subst out1. destruct (coercion _ _ _); [apply updates_persisted|done]. }
  assert (Hle : updates out1 <= 1) by (rewrite Hout1; destruct (coercion _ _ _); lia).
  destruct (roomStoreToken s) eqn:Htok.
  - eexists _, _. split; [reflexivity|].
    split; [rewrite Hlt; exact Hct|].
    split.
    { intros k HkA HkB. rewrite Hlk by exact HkB. cbn [s2 byRoom set_viewed].
      by apply Hck. }
    split; [|discriminate].
    unfold updates in *. rewrite filter_app, length_app.
    fold (updates (persisted E (final (loadCacheFromSettings E s2)))).
    rewrite updates_persisted. lia.
  - eexists _, _. split; [reflexivity|].
    split; [exact Hct|].
    split; [intros k HkA HkB; cbn [s2 byRoom set_viewed]; by apply Hck|].
    split; [lia|]. intros _. split; [exact Hcg | exact Hout1].
Qed.

Lemma dispatch_returns_and_keeps_other_rooms_aux E payload s :
  exists s' out,
    onDispatch E payload s = Ret tt s' out
    /\ roomStoreToken s' = roomStoreToken s
    /\ (roomStoreToken s = false -> global s' = global s).
Proof.
  destruct payload as [a B].
  destruct (decide (B = viewedRoomId s)) as [HB|HB].
  { exists s, []. by rewrite dispatch_for_viewed_room_is_ignored_aux by (by left). }
  destruct a as [| |name].
  - destruct (dispatch_switch_frame E ViewRoom B s) as (s' & out & H1 & H2 & _ & _ & H3);
      [auto | done |]. exists s', out. split; [done|]. split; [done|].
    intros Hf. by apply H3.
  - destruct (dispatch_switch_frame E view_group B s) as (s' & out & H1 & H2 & _ & _ & H3);
      [auto | done |]. exists s', out. split; [done|]. split; [done|].
    intros Hf. by apply H3.
  - by exists s, [].
Qed.

(** X12: the dispatcher callback never throws; it keeps the token and
    every record but those of the room left and the room entered; it
    notifies at most twice, and a store without token keeps its global
    record and is notified only for a coercion, once. *)
Theorem dispatch_returns_and_keeps_other_rooms E payload s :
  exists s' out,
    onDispatch E payload s = Ret tt s' out
    /\ roomStoreToken s' = roomStoreToken s
    /\ (forall k, k <> key (viewedRoomId s) -> k <> key (room_id payload) ->
        byRoom s' !! k = byRoom s !! k)
    /\ updates out <= 2
    /\ (roomStoreToken s = false ->
        global s' = global s
        /\ updates out
           = match coercion (isViewingRoom s) (action payload)
                     (phase (currentPanel s)) with
             | Some _ =>
                 if bool_decide (room_id payload = viewedRoomId s) then 0 else 1
             | None => 0
             end).
Proof.
  destruct payload as [a B]. cbn [action room_id].
  destruct (decide (B = viewedRoomId s)) as [HB|HB].
  { exists s, []. rewrite dispatch_for_viewed_room_is_ignored_aux by (by left).
    rewrite (bool_decide_eq_true_2 _ HB).
    repeat split; try done; try (cbn; lia). by destruct (coercion _ _ _). }
  rewrite (bool_decide_eq_false_2 _ HB).
  destruct a as [| |name].
  - apply dispatch_switch_frame; auto.
  - apply dispatch_switch_frame; auto.
  - exists s, []. repeat split; try done; try (cbn; lia).
    by destruct (isViewingRoom s).
Qed.

(** ** Getting ready *)

Lemma loadCacheFromSettings_again E s :
  final (loadCacheFromSettings E (final (loadCacheFromSettings E s)))
  = final (loadCacheFromSettings E s).
Proof.
  unfold loadCacheFromSettings, bind, get, modify, ret.
  destruct (getRoom E (viewedRoomId s)) as [room|] eqn:Hroom;
    cbn [final viewedRoomId set_byRoom set_global]; rewrite Hroom;
    [|reflexivity].
  cbn [final viewedRoomId byRoom global set_byRoom set_global].
  unfold set_byRoom, set_global.
  cbn [viewedRoomId isViewingRoom roomStoreToken byRoom global].
  f_equal.
  - destruct (byRoom s !! key (viewedRoomId s)) eqn:Hv.
    + by rewrite Hv.
    + destruct (convertToStateRoom E
                  (getValue E "RightPanel.phases" (viewedRoomId s)) room).
      * by rewrite lookup_insert_eq.
      * by rewrite Hv.
  - destruct (global s); [done|].
    by destruct (convertToStateRoom E _ room).
Qed.

(** X13: [onReady] never throws and notifies once, after writing to the
    settings the records of the store it leaves.  It only fills what the
    store does not hold: a record or a global record already in memory is
    kept, the records of the rooms not viewed are not touched, nothing is
    loaded when the client does not know the viewed room, and a second
    [onReady] under the same collaborators leaves the store as the first
    one left it. *)
Theorem onReady_fills_only_what_is_missing E s :
  exists s',
    onReady E s = Ret tt s' (persisted E s')
    /\ updates (persisted E s') = 1
    /\ viewedRoomId s' = viewedRoomId s
    /\ isViewingRoom s' = isViewingRoom s
    /\ (forall k r, byRoom s !! k = Some r -> byRoom s' !! k = Some r)
    /\ (forall g, global s = Some g -> global s' = Some g)
    /\ (forall k, k <> key (viewedRoomId s) -> byRoom s' !! k = byRoom s !! k)
    /\ (getRoom E (viewedRoomId s) = None -> s' = s)
    /\ final (onReady E s') = s'.
Proof.
  exists (final (loadCacheFromSettings E s)).
  assert (Hrun : forall t, onReady E t
                 = Ret tt (final (loadCacheFromSettings E t))
                     (persisted E (final (loadCacheFromSettings E t)))).
  { intros t. unfold onReady, bind.
    by rewrite loadCacheFromSettings_returns, emitAndUpdateSettings_eq. }
  destruct (loadCacheFromSettings_frame E s)
    as (Hv & Hm & _ & Hkeep & Hg & Hother & Hnone).
  split; [apply Hrun|]. split; [apply updates_persisted|].
  repeat (split; [assumption|]).
  rewrite Hrun. cbn [final]. apply loadCacheFromSettings_again.
Qed.

(** ** The validity check and the redirect *)

(** X14: [isPhaseActionIsValid] leaves the store alone, answers whether the
    phase has a truthy entry in the enum object and is of the family of the
    mode, and warns exactly when it answers no.  Every member of the enum
    is accepted in exactly one of the two modes, the four group phases in
    group mode and all others in room mode; [null] in neither; a value that
    is not a member is accepted in room mode exactly when its name is one
    the enum object inherits from [Object.prototype], and never in group
    mode. *)
Theorem validity_check_splits_phases_by_mode p s :
  (exists out,
     isPhaseActionIsValid (Stored := Stored) p s
       = Ret (phaseMatchesMode (isViewingRoom s) p) s out
     /\ (phaseMatchesMode (isViewingRoom s) p = true -> out = [])
     /\ (phaseMatchesMode (isViewingRoom s) p = false ->
         exists w, out = [LoggerWarn w]))
  /\ (forall q,
        phaseMatchesMode true (P q) = negb (bool_decide (q ∈ GROUP_PHASES))
        /\ phaseMatchesMode false (P q) = bool_decide (q ∈ GROUP_PHASES))
  /\ (phaseMatchesMode true PNull = false
      /\ phaseMatchesMode false PNull = false)
  /\ (forall raw,
        phaseMatchesMode true (PUnknown raw) = inheritedName raw
        /\ phaseMatchesMode false (PUnknown raw) = false)
  /\ (phaseMatchesMode false p = true <-> includes GROUP_PHASES p = true).
Proof.
  split; [|split; [|split; [|split]]].
  - destruct (phaseMatchesMode (isViewingRoom s) p) eqn:Hv.
    + exists []. rewrite isPhaseActionIsValid_accepts by done. by repeat split.
    + destruct (isPhaseActionIsValid_rejects (Stored := Stored) p s Hv) as [w Hw].
      exists [LoggerWarn w]. split; [done|]. split; [done|]. by exists w.
  - intros q. unfold phaseMatchesMode. cbn [recognized includes andb negb].
    by destruct (bool_decide (q ∈ GROUP_PHASES)).
  - done.
  - intros raw. unfold phaseMatchesMode. cbn [recognized includes negb].
    by destruct (inheritedName raw).
  - unfold phaseMatchesMode.
    destruct p as [|q|raw]; cbn [recognized includes negb andb].
    + split; discriminate.
    + by destruct (bool_decide (q ∈ GROUP_PHASES)).
    + destruct (inheritedName raw); split; discriminate.
Qed.

(** X15: the redirect answers only for [RoomMemberInfo] with a state, and
    then with [EncryptionPanel] carrying the pending request of the state's
    member and that member, nothing else of the state; any other request is
    used as it is.  Whether the request passes the validity check is the
    same before and after the redirect. *)
Theorem redirect_only_for_member_info_with_state E ph st :
  match getVerificationRedirect E {| phase := ph; state := st |} with
  | Some c =>
      ph = P RoomMemberInfo
      /\ exists x R,
          st = Some x
          /\ pendingVerificationRequestForUser E (member x) = Some R
          /\ c = {| phase := P EncryptionPanel;
                    state := Some {| member := member x;
                                     verificationRequest := Some R;
                                     otherFields := [] |} |}
          /\ resolve E ph st = (phase c, state c)
  | None => resolve E ph st = (ph, st)
  end
  /\ (ph <> P RoomMemberInfo \/ st = None -> resolve E ph st = (ph, st))
  /\ (forall viewing,
        phaseMatchesMode viewing (resolve E ph st).1
        = phaseMatchesMode viewing ph).
Proof.
  split; [|split].
  - unfold resolve, getVerificationRedirect. cbn [phase state].
    destruct ph as [|[]|]; try reflexivity.
    destruct st as [x|]; [|reflexivity].
    destruct (pendingVerificationRequestForUser E (member x)) as [R|] eqn:HR;
      [|reflexivity].
    split; [done|]. exists x, R. by rewrite HR.
  - intros H. apply resolve_no_redirect.
    unfold getVerificationRedirect. cbn [phase state].
    destruct H as [H | ->]; [|by destruct ph as [|[]|]].
    destruct ph as [|[]|]; try reflexivity. done.
  - intros viewing. apply resolve_keeps_validity.
Qed.

(** ** Only members of the enum are ever stored *)

Lemma histories_recognized_insert s k r :
  histories_recognized s ->
  (forall e, e ∈ history r -> recognized (phase e) = true) ->
  histories_recognized (set_byRoom (<[k := r]> (byRoom s)) s).
Proof.
  intros Hs Hr k' r' e. cbn [byRoom set_byRoom].
  destruct (decide (k = k')) as [<-|Hne].
  - rewrite lookup_insert_eq. intros [= <-]. apply Hr.
  - rewrite lookup_insert_ne by done. apply Hs.
Qed.

Lemma phaseMatchesMode_recognized viewing p :
  phaseMatchesMode viewing p = true -> recognized p = true.
Proof. unfold phaseMatchesMode. by destruct (recognized p). Qed.

Lemma elem_of_removelast {A} (l : list A) (x : A) :
  x ∈ removelast l -> x ∈ l.
Proof.
  destruct (last l) as [y|] eqn:Hy.
  - apply last_Some in Hy as [l' ->]. rewrite removelast_last.
    intros Hx. apply elem_of_app. by left.
  - by apply last_None in Hy as ->.
Qed.

Lemma togglePanel_keeps_recognized E rid s :
  histories_recognized s -> histories_recognized (final (togglePanel E rid s)).
Proof.
  intros Hs. destruct (byRoom s !! key (target rid s)) as [r|] eqn:Hr.
  - rewrite (togglePanel_eq E rid s r Hr). cbn [final].
    apply histories_recognized_insert; [done|]. cbn [history].
    intros e. by apply (Hs _ _ _ Hr).
  - by rewrite togglePanel_absent.
Qed.

Lemma call_keeps_recognized E c s :
  histories_recognized s -> histories_recognized (final (call E c s)).
Proof.
  intros Hs. destruct c as [ph st ac rid | ph st ac rid | rid | rid]; cbn [call].
  - destruct (phaseMatchesMode (isViewingRoom s) (resolve E ph st).1) eqn:Hv.
    2:{ by destruct (setRightPanel_rejected E ph st ac rid s Hv) as [w ->]. }
    rewrite setRightPanel_accepted by exact Hv.
    destruct (_ && _ && _); [by apply togglePanel_keeps_recognized|].
    destruct (_ && _).
    { destruct (byRoom s !! key (target rid s)) as [r|] eqn:Hr; [|done].
      destruct (last (history r)) as [top|] eqn:Htop; [|done].
      cbn zeta. cbn [final]. apply histories_recognized_insert; [done|].
      cbn [history]. apply last_Some in Htop as [l Hl].
      rewrite Hl, insert_top. intros e [He | He%list_elem_of_singleton]%elem_of_app.
      - apply (Hs _ _ _ Hr). rewrite Hl. apply elem_of_app. by left.
      - subst e. cbn [phase]. apply (Hs _ _ _ Hr). rewrite Hl.
        apply elem_of_app. right. by apply list_elem_of_singleton. }
    destruct (negb _); [|done].
    rewrite setRightPanelCache_eq. cbn [final].
    apply histories_recognized_insert; [done|]. cbn [history].
    intros e ->%list_elem_of_singleton. cbn [phase].
    by apply phaseMatchesMode_recognized in Hv.
  - destruct (phaseMatchesMode (isViewingRoom s) (resolve E ph st).1) eqn:Hv.
    2:{ by destruct (pushRightPanel_rejected E ph st ac rid s Hv) as [w ->]. }
    destruct (byRoom s !! key (target rid s)) as [r|] eqn:Hr.
    + rewrite (pushRightPanel_existing E ph st ac rid s r Hv Hr). cbn [final].
      apply histories_recognized_insert; [done|]. cbn [history].
      intros e [He | ->%list_elem_of_singleton]%elem_of_app.
      * by apply (Hs _ _ _ Hr).
      * cbn [phase]. by apply phaseMatchesMode_recognized in Hv.
    + by rewrite pushRightPanel_absent.
  - destruct (byRoom s !! key (target rid s)) as [r|] eqn:Hr.
    + rewrite (popRightPanel_eq E rid s r Hr). cbn [final].
      apply histories_recognized_insert; [done|]. cbn [history].
      intros e He%elem_of_removelast. by apply (Hs _ _ _ Hr).
    + by rewrite popRightPanel_absent.
  - by apply togglePanel_keeps_recognized.
Qed.

Lemma dispatch_keeps_recognized E payload s :
  roomStoreToken s = false -> histories_recognized s ->
  histories_recognized (final (onDispatch E payload s)).
Proof.
  intros Htok Hs. destruct payload as [a B].
  destruct (decide (B = viewedRoomId s)) as [HB|HB].
  { by rewrite dispatch_for_viewed_room_is_ignored_aux by (by left). }
  assert (Hsw : forall a, a = ViewRoom \/ a = view_group ->
    histories_recognized (final (onDispatch E {| action := a; room_id := B |} s))).
  { intros a' Ha. rewrite (onDispatch_switch_eq E a' B s Ha HB). cbn zeta.
    rewrite Htok. cbn [final]. unfold coerced.
    destruct (coercion _ _ _) as [q|]; [|exact Hs].
    intros k r e. cbn [byRoom set_viewed].
    apply (histories_recognized_insert s (key (viewedRoomId s))
             {| history := [ {| phase := P q; state := Some emptyState |} ];
                isOpen := true |} Hs).
    cbn [history]. by intros e' ->%list_elem_of_singleton. }
  destruct a as [| |name]; [apply Hsw; auto | apply Hsw; auto | exact Hs].
Qed.

Lemma handle_keeps_frame E ev s :
  roomStoreToken (final (handle E ev s)) = roomStoreToken s
  /\ (roomStoreToken s = false -> global (final (handle E ev s)) = global s).
Proof.
  destruct ev as [c|payload]; cbn [handle].
  - destruct (call_ending E c s); cbn [final]; done.
  - destruct (dispatch_returns_and_keeps_other_rooms_aux E payload s)
      as (s' & out & -> & Ht & Hg). cbn [final]. split; [exact Ht|].
    intros Hf. by apply Hg.
Qed.

(** X16: as long as the store holds no token (nothing is loaded from the
    settings), no sequence of setter calls and dispatched actions, with
    whatever arguments and collaborators, changes the global record or puts
    into a history a phase the enum lookup turns down: the phase of the
    current card is [null], a member of the enum, or a value named like a
    member of [Object.prototype], which the lookup lets through; it is
    never any other value. *)
Theorem stored_phases_pass_the_enum_lookup
    (evs : list (Env Member Request Value Room Stored
                 * Event Member Request Value)) s :
  roomStoreToken s = false ->
  histories_recognized s ->
  let s' := runEvents evs s in
  roomStoreToken s' = false
  /\ histories_recognized s'
  /\ global s' = global s
  /\ (phase (currentPanel s') = PNull
      \/ (exists q, phase (currentPanel s') = P q)
      \/ (exists raw, phase (currentPanel s') = PUnknown raw
                      /\ inheritedName raw = true)).
Proof.
  intros Htok Hs. cbn zeta.
  assert (Hinv : roomStoreToken (runEvents evs s) = false
                 /\ histories_recognized (runEvents evs s)
                 /\ global (runEvents evs s) = global s).
  { revert s Htok Hs. induction evs as [|[E ev] evs IH]; intros s Htok Hs.
    - done.
    - cbn [runEvents fold_left fst snd].
      destruct (handle_keeps_frame E ev s) as [Ht Hg].
      assert (Hs1 : histories_recognized (final (handle E ev s))).
      { destruct ev as [c|payload]; cbn [handle].
        - by apply call_keeps_recognized.
        - by apply dispatch_keeps_recognized. }
      destruct (IH (final (handle E ev s))) as (H1 & H2 & H3);
        [by rewrite Ht | exact Hs1 |].
      split; [exact H1|]. split; [exact H2|].
      unfold runEvents in H3. rewrite H3. by apply Hg. }
  destruct Hinv as (H1 & H2 & H3). repeat (split; [assumption|]).
  unfold currentPanel, roomPhaseHistory, historyOf.
  destruct (byRoom (runEvents evs s) !! key (viewedRoomId (runEvents evs s)))
    as [r|] eqn:Hr; [|by left].
  destruct (last (history r)) as [top|] eqn:Htop; [|by left].
  assert (Hrec : recognized (phase top) = true).
  { apply (H2 _ _ _ Hr). apply last_Some in Htop as [l ->].
    apply elem_of_app. right. by apply list_elem_of_singleton. }
  destruct (phase top) as [|q|raw]; [done | right; left; by exists q |].
  right. right. by exists raw.
Qed.

(** ** Setters composed, and setters before any room is viewed *)

(** X17: asking twice for the same new phase opens the panel and then
    closes it.  For a valid phase the viewed room does not show, aimed at
    the viewed room with no state and [allowClose], the first
    [setRightPanel] leaves the single card and the panel open, the second
    keeps the card and closes the panel. *)
Theorem same_request_twice_opens_then_closes E1 E2 ph rid s :
  phaseMatchesMode (isViewingRoom s) ph = true ->
  ph <> phase (currentPanel s) ->
  key (target rid s) = key (viewedRoomId s) ->
  exists s1 s2,
    setRightPanel E1 ph None true rid s = Ret tt s1 (persisted E1 s1)
    /\ setRightPanel E2 ph None true rid s1 = Ret tt s2 (persisted E2 s2)
    /\ roomPhaseHistory s1 = [ {| phase := ph; state := Some emptyState |} ]
    /\ isOpenForRoom s1 = true
    /\ roomPhaseHistory s2 = roomPhaseHistory s1
    /\ isOpenForRoom s2 = false.
Proof.
  intros Hv Hne Hk.
  assert (Hv1 : phaseMatchesMode (isViewingRoom s) (resolve E1 ph None).1 = true)
    by (by rewrite resolve_no_state).
  pose proof (setRightPanel_hard_reset E1 ph None true rid s Hv1) as H1.
  rewrite resolve_no_state in H1. cbn [fst snd] in H1.
  specialize (H1 Hne (or_intror eq_refl)). cbn zeta in H1.
  match type of H1 with _ = Ret tt ?x _ => set (s1 := x) in * end.
  assert (Hcur1 : currentPanel s1 = {| phase := ph; state := Some emptyState |}).
  { subst s1. by rewrite currentPanel_insert_viewed. }
  assert (Hv2 : phaseMatchesMode (isViewingRoom s1) (resolve E2 ph None).1 = true)
    by (by rewrite resolve_no_state).
  pose proof (setRightPanel_accepted E2 ph None true rid s1 Hv2) as H2.
  rewrite resolve_no_state in H2. cbn [fst snd] in H2.
  rewrite Hcur1 in H2. unfold phase_eqb in H2. cbn [phase] in H2.
  rewrite (bool_decide_eq_true_2 (ph = ph)) in H2 by done.
  rewrite (bool_decide_eq_false_2 (is_Some None)) in H2 by (by intros [? ?]).
  cbn [andb negb] in H2. rewrite togglePanel_target in H2.
  assert (Ht : target rid s1 = target rid s) by reflexivity.
  assert (Hr1 : byRoom s1 !! key (target rid s1)
     = Some {| history := [ {| phase := ph; state := Some emptyState |} ];
               isOpen := true |}).
  { rewrite Ht, Hk. subst s1. cbn [byRoom set_byRoom]. apply lookup_insert_eq. }
  pose proof (togglePanel_eq E2 rid s1 _ Hr1) as H3. cbn zeta in H3.
  rewrite H3 in H2. rewrite Ht, Hk in H2.
  change (key (viewedRoomId s)) with (key (viewedRoomId s1)) in H2.
  eexists _, _. split; [exact H1|]. split; [exact H2|].
  split; [subst s1; by rewrite roomPhaseHistory_insert_viewed|].
  split; [subst s1; by rewrite isOpenForRoom_insert_viewed|].
  split.
  - rewrite roomPhaseHistory_insert_viewed. cbn [history].
    subst s1. by rewrite roomPhaseHistory_insert_viewed.
  - by rewrite isOpenForRoom_insert_viewed.
Qed.

(** X18: while no room is viewed ([viewedRoomId] undefined, [null] or the
    empty string) a setter that returns having notified has written the
    global record to the settings and nothing under a room. *)
Theorem without_viewed_room_only_global_is_written E c s :
  truthy_id (viewedRoomId s) = false ->
  let res := call E c s in
  output res
    = [ SetValue "RightPanel.phasesGlobal" IdNull DEVICE
          (convertToStoreRoom E (global s));
        EmitUpdate ]
  \/ output res = []
  \/ exists w, output res = [LoggerWarn w].
Proof.
  intros Hf. cbn zeta.
  destruct (call_ending E c s) as [k0 r0 Hk0| | | |]; cbn [output]; eauto;
    left; unfold persisted; cbn [viewedRoomId global set_byRoom];
    by rewrite Hf.
Qed.

End MoreProperties.

(** ** These theorems at work on the demo stores *)

Import DemoMore.

Lemma pop_and_toggle_need_a_record_witness :
  byRoom inRoomA !! key (target IdNull inRoomA) = None
  /\ inheritedName (key (target IdNull inRoomA)) = false
  /\ popRightPanel quiet IdNull inRoomA = Throw inRoomA []
  /\ togglePanel quiet IdNull inRoomA = Throw inRoomA [].
Proof.
  assert (H : byRoom inRoomA !! key (target IdNull inRoomA) = None)
    by (vm_compute; reflexivity).
  assert (H' : inheritedName (key (target IdNull inRoomA)) = false)
    by (vm_compute; reflexivity).
  split; [exact H|]. split; [exact H'|].
  destruct (pop_and_toggle_need_a_record quiet IdNull inRoomA H) as [Hpop Htog].
  split; [exact Hpop | exact (Htog H')].
Defined.

Lemma same_phase_for_a_room_without_cards_throws_witness :
  let s := inRoomA_afterB in
  phaseMatchesMode (isViewingRoom s)
    (resolve quiet (P RoomSummary) (Some bobState)).1 = true
  /\ (resolve quiet (P RoomSummary) (Some bobState)).1 = phase (currentPanel s)
  /\ is_Some (resolve quiet (P RoomSummary) (Some bobState)).2
  /\ historyOf (target (Id roomC) s) s = []
  /\ byRoom s !! key (target (Id roomC) s) = None
  /\ inheritedName (key (target (Id roomC) s)) = false
  /\ setRightPanel quiet (P RoomSummary) (Some bobState) true (Id roomC) s
     = Throw s []
  /\ setRightPanel quiet (P RoomSummary) None true (Id roomC) s = Throw s [].
Proof.
  cbn zeta.
  assert (H1 : phaseMatchesMode (isViewingRoom inRoomA_afterB)
                 (resolve quiet (P RoomSummary) (Some bobState)).1 = true)
    by (vm_compute; reflexivity).
  assert (H2 : (resolve quiet (P RoomSummary) (Some bobState)).1
               = phase (currentPanel inRoomA_afterB)) by (vm_compute; reflexivity).
  assert (H3 : is_Some (resolve quiet (P RoomSummary) (Some bobState)).2)
    by (exists bobState; reflexivity).
  assert (H4 : historyOf (target (Id roomC) inRoomA_afterB) inRoomA_afterB = [])
    by (vm_compute; reflexivity).
  assert (H5 : byRoom inRoomA_afterB !! key (target (Id roomC) inRoomA_afterB) = None)
    by (vm_compute; reflexivity).
  assert (H6 : inheritedName (key (target (Id roomC) inRoomA_afterB)) = false)
    by (vm_compute; reflexivity).
  split; [exact H1|]. split; [exact H2|]. split; [exact H3|]. split; [exact H4|].
  split; [exact H5|]. split; [exact H6|].
  split.
  - exact (proj1 (same_phase_for_a_room_without_cards_throws quiet (P RoomSummary)
                    (Some bobState) true (Id roomC) inRoomA_afterB H1 H2) H3 H4).
  - exact (proj2 (same_phase_for_a_room_without_cards_throws quiet (P RoomSummary)
                    None true (Id roomC) inRoomA_afterB H1 H2) eq_refl eq_refl H5 H6).
Defined.

Lemma same_phase_without_state_toggles_witness :
  let s := inRoomA_afterB in
  phaseMatchesMode (isViewingRoom s) (P RoomSummary) = true
  /\ P RoomSummary = phase (currentPanel s)
  /\ key (target IdNull s) = key (viewedRoomId s)
  /\ isOpenForRoom s = true
  /\ exists s',
      setRightPanel quiet (P RoomSummary) None true IdNull s
        = Ret tt s' (persisted quiet s')
      /\ roomPhaseHistory s' = roomPhaseHistory s
      /\ isOpenForRoom s' = negb (isOpenForRoom s)
      /\ updates (persisted quiet s') = 1.
Proof.
  cbn zeta.
  assert (H1 : phaseMatchesMode (isViewingRoom inRoomA_afterB) (P RoomSummary) = true)
    by (vm_compute; reflexivity).
  assert (H2 : P RoomSummary = phase (currentPanel inRoomA_afterB))
    by (vm_compute; reflexivity).
  assert (H3 : key (target IdNull inRoomA_afterB) = key (viewedRoomId inRoomA_afterB))
    by reflexivity.
  split; [exact H1|]. split; [exact H2|]. split; [exact H3|].
  split; [vm_compute; reflexivity|].
  exact (proj2 (same_phase_without_state_toggles quiet (P RoomSummary) IdNull
                  inRoomA_afterB H1 H2) H3).
Defined.

Lemma new_phase_resets_viewed_room_witness :
  let s := inRoomA_twoCards in
  phaseMatchesMode (isViewingRoom s) (resolve quiet (P RoomMemberList) None).1 = true
  /\ (resolve quiet (P RoomMemberList) None).1 <> phase (currentPanel s)
  /\ key (target IdNull s) = key (viewedRoomId s)
  /\ length (roomPhaseHistory s) = 2
  /\ exists s',
      setRightPanel quiet (P RoomMemberList) None false IdNull s
        = Ret tt s' (persisted quiet s')
      /\ roomPhaseHistory s' = [card RoomMemberList emptyState]
      /\ isOpenForRoom s' = true.
Proof.
  cbn zeta.
  assert (H1 : phaseMatchesMode (isViewingRoom inRoomA_twoCards)
                 (resolve quiet (P RoomMemberList) None).1 = true)
    by (vm_compute; reflexivity).
  assert (H2 : (resolve quiet (P RoomMemberList) None).1
               <> phase (currentPanel inRoomA_twoCards))
    by (vm_compute; discriminate).
  assert (H3 : key (target IdNull inRoomA_twoCards)
               = key (viewedRoomId inRoomA_twoCards)) by reflexivity.
  split; [exact H1|]. split; [exact H2|]. split; [exact H3|].
  split; [vm_compute; reflexivity|].
  destruct (new_phase_resets_viewed_room quiet (P RoomMemberList) None false IdNull
              inRoomA_twoCards H1 H2 H3) as (s' & Hset & Hh & Ho & _).
  exists s'. split; [exact Hset|]. split; [exact Hh | exact Ho].
Defined.

Lemma pop_shows_the_previous_panel_witness :
  let s := inRoomA_twoCards in
  key (target IdNull s) = key (viewedRoomId s)
  /\ byRoom s !! key (viewedRoomId s) = Some twoCardsRecord
  /\ previousPanel s = card RoomSummary emptyState
  /\ exists s',
      popRightPanel quiet IdNull s = Ret tt s' (persisted quiet s')
      /\ currentPanel s' = previousPanel s
      /\ roomPhaseHistory s' = removelast (roomPhaseHistory s)
      /\ isOpenForRoom s' = isOpenForRoom s.
Proof.
  cbn zeta.
  assert (H1 : key (target IdNull inRoomA_twoCards)
               = key (viewedRoomId inRoomA_twoCards)) by reflexivity.
  assert (H2 : byRoom inRoomA_twoCards !! key (viewedRoomId inRoomA_twoCards)
               = Some twoCardsRecord) by (vm_compute; reflexivity).
  split; [exact H1|]. split; [exact H2|]. split; [vm_compute; reflexivity|].
  exact (pop_shows_the_previous_panel quiet IdNull inRoomA_twoCards
           twoCardsRecord H1 H2).
Defined.

Lemma push_on_viewed_room_adds_a_card_witness :
  let s := inRoomA_afterB in
  phaseMatchesMode (isViewingRoom s) (P FilePanel) = true
  /\ key (target IdNull s) = key (viewedRoomId s)
  /\ byRoom s !! key (viewedRoomId s) = Some summaryRecord
  /\ exists s',
      pushRightPanel quiet (P FilePanel) None false IdNull s
        = Ret tt s' (persisted quiet s')
      /\ roomPhaseHistory s'
         = roomPhaseHistory s ++ [pushed quiet (P FilePanel, None)]
      /\ currentPanel s' = pushed quiet (P FilePanel, None)
      /\ previousPanel s' = currentPanel s
      /\ isOpenForRoom s' = true.
Proof.
  cbn zeta.
  assert (H1 : phaseMatchesMode (isViewingRoom inRoomA_afterB) (P FilePanel) = true)
    by (vm_compute; reflexivity).
  assert (H2 : key (target IdNull inRoomA_afterB)
               = key (viewedRoomId inRoomA_afterB)) by reflexivity.
  assert (H3 : byRoom inRoomA_afterB !! key (viewedRoomId inRoomA_afterB)
               = Some summaryRecord) by (vm_compute; reflexivity).
  split; [exact H1|]. split; [exact H2|]. split; [exact H3|].
  exact (push_on_viewed_room_adds_a_card quiet (P FilePanel) None false IdNull
           inRoomA_afterB summaryRecord H1 H2 H3).
Defined.

Lemma pushes_then_pops_compose_witness :
  let s := inRoomA_afterB in
  let reqs := [(P FilePanel, None); (P RoomMemberInfo, Some aliceState)] in
  let pushes := map (fun req => (verifying, CallPush req.1 req.2 true (Id roomB)))
                  reqs in
  let pops := replicate (length reqs) (verifying, CallPop (Id roomB)) in
  byRoom s !! key (target (Id roomB) s) = Some memberListRecord
  /\ Forall (fun req => phaseMatchesMode (isViewingRoom s) req.1 = true) reqs
  /\ historyOf (target (Id roomB) s) (run pushes s)
     = history memberListRecord ++ map (pushed verifying) reqs
  /\ historyOf (target (Id roomB) s) (run (pushes ++ pops) s)
     = history memberListRecord.
Proof.
  cbn zeta.
  assert (H1 : byRoom inRoomA_afterB !! key (target (Id roomB) inRoomA_afterB)
               = Some memberListRecord) by (vm_compute; reflexivity).
  assert (H2 : Forall (fun req : PhaseValue * option (IPanelState string nat string) =>
                         phaseMatchesMode (isViewingRoom inRoomA_afterB) req.1 = true)
                 [(P FilePanel, None); (P RoomMemberInfo, Some aliceState)])
    by (repeat constructor).
  split; [exact H1|]. split; [exact H2|].
  exact (pushes_then_pops_compose verifying (Id roomB) true _ inRoomA_afterB
           memberListRecord H1 H2).
Defined.

Lemma change_to_other_room_is_not_persisted_witness :
  let s := inRoomA_afterB in
  let c := CallToggle (Id roomB) in
  isSet c = false
  /\ key (target (roomOf c) s) <> key (viewedRoomId s)
  /\ byRoom (final (call quiet c s)) !! roomB <> byRoom s !! roomB
  /\ (output (call quiet c s) = persisted quiet s
      \/ output (call quiet c s) = []
      \/ exists w, output (call quiet c s) = [LoggerWarn w]).
Proof.
  cbn zeta.
  assert (H1 : isSet (CallToggle (Member := string) (Request := nat)
                        (Value := string) (Id roomB)) = false) by reflexivity.
  assert (H2 : key (target (roomOf (CallToggle (Member := string) (Request := nat)
                                      (Value := string) (Id roomB)))
                      inRoomA_afterB)
               <> key (viewedRoomId inRoomA_afterB)) by (vm_compute; discriminate).
  split; [exact H1|]. split; [exact H2|].
  split; [vm_compute; discriminate|].
  exact (change_to_other_room_is_not_persisted quiet _ inRoomA_afterB H1 H2).
Defined.

Lemma dispatch_for_viewed_room_is_ignored_witness :
  let payload := {| action := ViewRoom; room_id := Id roomA |} in
  (room_id payload = viewedRoomId inRoomA_afterB
   \/ exists name, action payload = OtherAction name)
  /\ onDispatch quiet payload inRoomA_afterB = Ret tt inRoomA_afterB [].
Proof.
  cbn zeta.
  assert (H : room_id {| action := ViewRoom; room_id := Id roomA |}
              = viewedRoomId inRoomA_afterB
              \/ exists name,
                   action {| action := ViewRoom; room_id := Id roomA |}
                   = OtherAction name)
    by (left; vm_compute; reflexivity).
  split; [exact H|].
  exact (dispatch_for_viewed_room_is_ignored quiet _ inRoomA_afterB H).
Defined.

Lemma stored_phases_pass_the_enum_lookup_witness :
  let s' := runEvents someEvents initialStore in
  roomStoreToken (initialStore (Member := string) (Request := nat)
                               (Value := string)) = false
  /\ histories_recognized (initialStore (Member := string) (Request := nat)
                                         (Value := string))
  /\ currentPanel s' = card RoomSummary emptyState
  /\ roomStoreToken s' = false
  /\ histories_recognized s'
  /\ global s' = None
  /\ (phase (currentPanel s') = PNull
      \/ (exists q, phase (currentPanel s') = P q)
      \/ (exists raw, phase (currentPanel s') = PUnknown raw
                      /\ inheritedName raw = true)).
Proof.
  cbn zeta.
  assert (H1 : roomStoreToken (initialStore (Member := string) (Request := nat)
                                 (Value := string)) = false) by reflexivity.
  assert (H2 : histories_recognized (initialStore (Member := string)
                                       (Request := nat) (Value := string))).
  { intros k r e Hk. cbn [byRoom initialStore] in Hk.
    rewrite lookup_empty in Hk. discriminate. }
  split; [exact H1|]. split; [exact H2|]. split; [vm_compute; reflexivity|].
  exact (stored_phases_pass_the_enum_lookup someEvents initialStore H1 H2).
Defined.

Lemma same_request_twice_opens_then_closes_witness :
  let s := inRoomA in
  phaseMatchesMode (isViewingRoom s) (P RoomSummary) = true
  /\ P RoomSummary <> phase (currentPanel s)
  /\ key (target IdNull s) = key (viewedRoomId s)
  /\ exists s1 s2,
      setRightPanel quiet (P RoomSummary) None true IdNull s
        = Ret tt s1 (persisted quiet s1)
      /\ setRightPanel quiet (P RoomSummary) None true IdNull s1
         = Ret tt s2 (persisted quiet s2)
      /\ roomPhaseHistory s1 = [card RoomSummary emptyState]
      /\ isOpenForRoom s1 = true
      /\ roomPhaseHistory s2 = roomPhaseHistory s1
      /\ isOpenForRoom s2 = false.
Proof.
  cbn zeta.
  assert (H1 : phaseMatchesMode (isViewingRoom inRoomA) (P RoomSummary) = true)
    by (vm_compute; reflexivity).
  assert (H2 : P RoomSummary <> phase (currentPanel inRoomA))
    by (vm_compute; discriminate).
  assert (H3 : key (target IdNull inRoomA) = key (viewedRoomId inRoomA))
    by reflexivity.
  split; [exact H1|]. split; [exact H2|]. split; [exact H3|].
  exact (same_request_twice_opens_then_closes quiet quiet (P RoomSummary) IdNull
           inRoomA H1 H2 H3).
Defined.

Lemma without_viewed_room_only_global_is_written_witness :
  let s := initialStore (Member := string) (Request := nat) (Value := string) in
  let c := CallSet (P GroupMemberList) None true IdNull in
  truthy_id (viewedRoomId s) = false
  /\ byRoom (final (call quiet c s)) !! "undefined"
     = Some {| history := [card GroupMemberList emptyState]; isOpen := true |}
  /\ (output (call quiet c s)
        = [ SetValue "RightPanel.phasesGlobal" IdNull DEVICE
              (convertToStoreRoom quiet (global s));
            EmitUpdate ]
      \/ output (call quiet c s) = []
      \/ exists w, output (call quiet c s) = [LoggerWarn w]).
Proof.
  cbn zeta.
  assert (H : truthy_id (viewedRoomId (initialStore (Member := string)
                           (Request := nat) (Value := string))) = false)
    by reflexivity.
  split; [exact H|]. split; [vm_compute; reflexivity|].
  exact (without_viewed_room_only_global_is_written quiet
           (CallSet (P GroupMemberList) None true IdNull) initialStore H).
Defined.
